(** * ERP data automation dashboard: refresh, publish, report and retention

    A shallow embedding of [main.py] (orchestrator, snapshot dictionary and
    query routes) and of the [ReportGenerator] class (workbook and CSV
    writers, summary computation, retention sweep), followed by the
    properties of the refresh-and-publish pipeline.

    Conventions of the embedding:
    - a pandas [DataFrame] is its column names plus its rows; a missing
      cell reads as NaN;
    - amounts are floats rounded to two decimals in the source; they are
      kept here as exact hundredths, so binary rounding of float sums is
      outside the model;
    - a Python exception is a value of [exn]; code that may raise returns
      a [result], stateful code threads a [World]. *)

From Stdlib Require Import ZArith Lia Bool Ascii String DecimalString.
From stdpp Require Import base option list gmap strings.

Local Open Scope Z_scope.
Local Open Scope string_scope.

(** ** Python values and exceptions *)

Inductive exn : Type :=
| KeyError (key : string)
| TypeError (msg : string)
| ValueError (msg : string)
| AttributeError (msg : string)
| OSError (path : list string)
| FileNotFoundError (path : list string)
| FetchError (msg : string).

Inductive result (A : Type) : Type :=
| Ok (a : A)
| Raise (e : exn).
Arguments Ok {A} a.
Arguments Raise {A} e.

#[global] Instance result_ret : MRet result := fun _ a => Ok a.
#[global] Instance result_bind : MBind result := fun _ _ f m =>
  match m with
  | Ok a => f a
  | Raise e => Raise e
  end.

(** A number is a Python [int] or a float carried as exact hundredths. *)
Inductive number : Type :=
| Int (n : Z)
| Float (hundredths : Z).

(** Broken-down clock reading: [epoch] is what [.timestamp()] returns, the
    calendar fields are what [strftime] prints. *)
Record datetime : Type := mk_datetime {
  epoch : Z;
  year : nat; month : nat; day : nat;
  hour : nat; minute : nat; second : nat
}.

Inductive value : Type :=
| VStr (s : string)
| VNum (x : number)
| VTime (t : datetime)
| VNaN.

#[global] Instance number_eq_dec : EqDecision number.
Proof. solve_decision. Defined.
#[global] Instance datetime_eq_dec : EqDecision datetime.
Proof. solve_decision. Defined.
#[global] Instance value_eq_dec : EqDecision value.
Proof. solve_decision. Defined.

(** ** Number formatting (Python format specs [,] and [,.2f]) *)

Definition digits (n : Z) : string :=
  NilZero.string_of_uint (N.to_uint (Z.to_N n)).

(** Two-digit, zero-padded field, as [%m], [%d], [%H], [%M], [%S]. *)
Definition pad2 (n : nat) : string :=
  let s := digits (Z.of_nat n) in
  if (String.length s <? 2)%nat then "0" ++ s else s.

(** Four-digit, zero-padded year, as [%Y]. *)
Definition pad4 (n : nat) : string :=
  let s := digits (Z.of_nat n) in
  string_of_list_ascii (repeat "0"%char (4 - String.length s)) ++ s.

(** Insert a comma every three characters of a reversed digit list. *)
Fixpoint group3 (k : nat) (rev_digits : list ascii) : list ascii :=
  match rev_digits with
  | [] => []
  | c :: rest =>
      match k, rest with
      | _, [] => [c]
      | O, _ => c :: ","%char :: group3 2 rest
      | S k', _ => c :: group3 k' rest
      end
  end.

Definition with_commas (n : Z) : string :=
  string_of_list_ascii
    (rev (group3 2 (rev (list_ascii_of_string (digits n))))).

Definition sign_str (n : Z) : string := if (n <? 0)%Z then "-" else "".

(** [f"{x:,}"] *)
Definition format_comma (x : number) : string :=
  match x with
  | Int n => sign_str n ++ with_commas (Z.abs n)
  | Float h =>
      let a := Z.abs h in
      let frac := a mod 100 in
      sign_str h ++ with_commas (a / 100) ++ "." ++
      (if (frac mod 10 =? 0)%Z then digits (frac / 10) else pad2 (Z.to_nat frac))
  end.

(** [f"{x:,.2f}"] *)
Definition format_comma_2f (x : number) : string :=
  match x with
  | Int n => sign_str n ++ with_commas (Z.abs n) ++ ".00"
  | Float h =>
      let a := Z.abs h in
      sign_str h ++ with_commas (a / 100) ++ "." ++ pad2 (Z.to_nat (a mod 100))
  end.

(** [strftime('%Y%m%d_%H%M%S')] *)
Definition strftime_compact (t : datetime) : string :=
  pad4 (year t) ++ pad2 (month t) ++ pad2 (day t) ++ "_" ++
  pad2 (hour t) ++ pad2 (minute t) ++ pad2 (second t).

(** [strftime('%Y-%m-%d %H:%M:%S')] *)
Definition strftime_human (t : datetime) : string :=
  pad4 (year t) ++ "-" ++ pad2 (month t) ++ "-" ++ pad2 (day t) ++ " " ++
  pad2 (hour t) ++ ":" ++ pad2 (minute t) ++ ":" ++ pad2 (second t).

(** ** Data frames *)

Record DataFrame : Type := mk_df {
  columns : list string;
  rows : list (list value)
}.

#[global] Instance DataFrame_eq_dec : EqDecision DataFrame.
Proof. solve_decision. Defined.

Definition Series : Type := list value.

(** [len(df)] *)
Definition len (df : DataFrame) : Z := Z.of_nat (length (rows df)).

Fixpoint index_of (c : string) (cols : list string) : option nat :=
  match cols with
  | [] => None
  | c' :: rest => if String.eqb c c' then Some O
                  else S <$> index_of c rest
  end.

(** ['c' in df] tests the column labels. *)
Definition has_column (c : string) (df : DataFrame) : bool :=
  match index_of c (columns df) with Some _ => true | None => false end.

(** [df['c']]: the column as a series, [KeyError] when absent. *)
Definition getitem (df : DataFrame) (c : string) : result Series :=
  match index_of c (columns df) with
  | Some i => Ok (map (fun r => nth i r VNaN) (rows df))
  | None => Raise (KeyError c)
  end.

(** [series == 's'], elementwise. *)
Definition series_eq (s : Series) (x : string) : list bool :=
  map (fun v => match v with VStr t => String.eqb t x | _ => false end) s.

(** [series.isin([...])], elementwise. *)
Definition isin (s : Series) (xs : list string) : list bool :=
  map (fun v => match v with
                | VStr t => existsb (String.eqb t) xs
                | _ => false
                end) s.

Fixpoint select {A : Type} (l : list A) (m : list bool) : list A :=
  match l, m with
  | x :: l', b :: m' => if b then x :: select l' m' else select l' m'
  | _, _ => []
  end.

(** [df[mask]]: boolean row selection. *)
Definition mask (df : DataFrame) (m : list bool) : DataFrame :=
  {| columns := columns df; rows := select (rows df) m |}.

Definition add_number (a b : number) : number :=
  match a, b with
  | Int x, Int y => Int (x + y)
  | Int x, Float y => Float (100 * x + y)
  | Float x, Int y => Float (x + 100 * y)
  | Float x, Float y => Float (x + y)
  end.

(** [series.sum()]: NaN cells are skipped, the empty sum is the integer
    zero, and a cell that is not a number is a [TypeError]. *)
Fixpoint series_sum (s : Series) : result number :=
  match s with
  | [] => Ok (Int 0)
  | VNum x :: rest => acc ← series_sum rest; Ok (add_number x acc)
  | VNaN :: rest => series_sum rest
  | _ :: _ => Raise (TypeError "unsupported operand type(s) for +")
  end.

(** ** Summary sheet ([ReportGenerator._create_summary]) *)

(** [len(df[df['status'] == s])] *)
Definition count_status (df : DataFrame) (s : string) : result Z :=
  st ← getitem df "status"; mret (len (mask df (series_eq st s))).

(** [len(df[df['status'].isin(l)])] *)
Definition count_status_in (df : DataFrame) (l : list string) : result Z :=
  st ← getitem df "status"; mret (len (mask df (isin st l))).

(** [df[c].sum()] *)
Definition column_sum (df : DataFrame) (c : string) : result number :=
  col ← getitem df c; series_sum col.

(** The currency prefix exactly as the bytes of the source file spell it
    (a rupee sign that went through a wrong decoding). *)
Definition currency_prefix : string :=
  string_of_list_ascii
    (map ascii_of_nat [195; 162; 226; 128; 154; 194; 185]%nat).

Definition Dict : Type := list (string * value).

Definition vint (n : Z) : value := VNum (Int n).

Definition _create_summary
    (purchase_df production_df packing_df shipment_df : DataFrame)
  : result (list Dict) :=
  p_pending ← count_status purchase_df "Pending";
  p_completed ← count_status_in purchase_df ["Approved"; "Delivered"];
  p_total ← (if has_column "amount" purchase_df
             then x ← column_sum purchase_df "amount";
                  mret (currency_prefix ++ format_comma_2f x)
             else mret "N/A");
  pr_pending ← count_status production_df "Pending";
  pr_completed ← count_status production_df "Completed";
  pr_total ← (if has_column "quantity" production_df
              then x ← column_sum production_df "quantity";
                   mret (format_comma x)
              else mret "N/A");
  pk_pending ← count_status packing_df "Pending";
  pk_completed ← count_status packing_df "Completed";
  pk_total ← (if has_column "quantity" packing_df
              then x ← column_sum packing_df "quantity";
                   mret (format_comma x)
              else mret "N/A");
  s_pending ← count_status shipment_df "Pending";
  s_completed ← count_status shipment_df "Delivered";
  s_total ← (if has_column "quantity" shipment_df
             then x ← column_sum shipment_df "quantity";
                  mret (format_comma x)
             else mret "N/A");
  mret
    [ [ ("Department", VStr "Purchase");
        ("Total Records", vint (len purchase_df));
        ("Pending", vint p_pending);
        ("Completed", vint p_completed);
        ("Total Value", VStr p_total) ];
      [ ("Department", VStr "Production");
        ("Total Records", vint (len production_df));
        ("Pending", vint pr_pending);
        ("Completed", vint pr_completed);
        ("Total Quantity", VStr pr_total) ];
      [ ("Department", VStr "Packing");
        ("Total Records", vint (len packing_df));
        ("Pending", vint pk_pending);
        ("Completed", vint pk_completed);
        ("Total Packed", VStr pk_total) ];
      [ ("Department", VStr "Shipment");
        ("Total Records", vint (len shipment_df));
        ("Pending", vint s_pending);
        ("Completed", vint s_completed);
        ("Total Shipped", VStr s_total) ] ].

(** Lookup in a dict literal, first binding of the key. *)
Fixpoint assoc {A : Type} (k : string) (d : list (string * A)) : option A :=
  match d with
  | [] => None
  | (k', v) :: rest => if String.eqb k k' then Some v else assoc k rest
  end.

(** ** The snapshot dictionary ([latest_data] of [main.py]) *)

Record LatestData : Type := mk_latest {
  purchase : option DataFrame;
  production : option DataFrame;
  packing : option DataFrame;
  shipment : option DataFrame;
  last_updated : option datetime
}.

#[global] Instance LatestData_eq_dec : EqDecision LatestData.
Proof. solve_decision. Defined.

Definition initial_latest_data : LatestData :=
  {| purchase := None; production := None; packing := None;
     shipment := None; last_updated := None |}.

(** ** Query routes *)

#[local] Unset Elimination Schemes.
Inductive json : Type :=
| JVal (v : value)
| JObj (fields : list (string * json))
| JArr (items : list json).
#[local] Set Elimination Schemes.

Record response : Type := mk_response { body : json; status : Z }.

Definition jstr (s : string) : json := JVal (VStr s).
Definition jint (n : Z) : json := JVal (vint n).
Definition jnum (x : number) : json := JVal (VNum x).

Definition error_response (msg : string) (code : Z) : response :=
  {| body := JObj [("error", jstr msg)]; status := code |}.

(** Using [None] where a data frame is expected. *)
Definition as_frame (o : option DataFrame) : result DataFrame :=
  match o with
  | Some df => Ok df
  | None => Raise (TypeError "'NoneType' object is not subscriptable")
  end.

(** Body of [get_summary], executed while holding [data_lock]. *)
Definition get_summary (latest_data : LatestData) : result response :=
  match last_updated latest_data with
  | None => mret (error_response "No data available" 404)
  | Some t =>
      pu ← as_frame (purchase latest_data);
      pu_amount ← column_sum pu "amount";
      pu_pending ← count_status pu "Pending";
      pr ← as_frame (production latest_data);
      pr_units ← column_sum pr "quantity";
      pr_completed ← count_status pr "Completed";
      pr_in_progress ← count_status pr "In Progress";
      pk ← as_frame (packing latest_data);
      pk_packed ← column_sum pk "quantity";
      pk_completed ← count_status pk "Completed";
      sh ← as_frame (shipment latest_data);
      sh_dispatched ← count_status sh "Dispatched";
      sh_pending ← count_status sh "Pending";
      mret {| body := JObj
                [ ("purchase", JObj
                    [ ("total_orders", jint (len pu));
                      ("total_amount", jnum pu_amount);
                      ("pending", jint pu_pending) ]);
                  ("production", JObj
                    [ ("total_units", jnum pr_units);
                      ("completed", jint pr_completed);
                      ("in_progress", jint pr_in_progress) ]);
                  ("packing", JObj
                    [ ("total_packed", jnum pk_packed);
                      ("completed", jint pk_completed) ]);
                  ("shipment", JObj
                    [ ("total_shipments", jint (len sh));
                      ("dispatched", jint sh_dispatched);
                      ("pending", jint sh_pending) ]);
                  ("last_updated", jstr (strftime_human t)) ];
              status := 200 |}
  end.

(** [df.to_dict(orient='records')] *)
Definition to_records (df : DataFrame) : json :=
  JArr (map (fun r => JObj (imap (fun i c => (c, JVal (nth i r VNaN)))
                                 (columns df)))
            (rows df)).

(** Body of [get_department_data], executed while holding [data_lock]. *)
Definition get_department_data (dept_name : string) (latest_data : LatestData)
  : result response :=
  match last_updated latest_data with
  | None => mret (error_response "No data available" 404)
  | Some _ =>
      let data_map :=
        [ ("purchase", purchase latest_data);
          ("production", production latest_data);
          ("packing", packing latest_data);
          ("shipment", shipment latest_data) ] in
      match assoc dept_name data_map with
      | None => mret (error_response "Invalid department" 400)
      | Some None =>
          Raise (AttributeError "'NoneType' object has no attribute 'to_dict'")
      | Some (Some df) =>
          mret {| body := JObj [ ("data", to_records df);
                                 ("count", jint (len df)) ];
                  status := 200 |}
      end
  end.

(** ** Files, log and the world the code runs in *)

Definition Path : Type := list string.

Inductive Content : Type :=
| Workbook (sheets : list (string * DataFrame))
| Csv (df : DataFrame).

Record File : Type := mk_file { mtime : Z; content : Content }.

Inductive LogRecord : Type :=
| INFO (msg : string)
| ERROR (msg : string).

(** The ERP backend as seen through [ERPDataExtractor]: the answer each of
    the four queries gives when it is asked.  The demo generator of the
    source always answers with a frame; the SQL path re-raises its
    failures, which is the [Raise] case. *)
Record Backend : Type := mk_backend {
  purchase_orders : result DataFrame;
  production_runs : result DataFrame;
  packing_jobs : result DataFrame;
  shipments : result DataFrame
}.

Record World : Type := mk_world {
  latest_data : LatestData;        (* main.latest_data *)
  running : bool;                  (* erp_system.running *)
  fs : gmap Path File;             (* files below the working directory *)
  denied : gset Path;              (* paths on which writing or unlinking fails *)
  clock : datetime;                (* what datetime.now() reads *)
  erp : Backend;
  log : list LogRecord             (* oldest record first *)
}.

Definition set_latest_data (f : LatestData -> LatestData) (w : World) : World :=
  {| latest_data := f (latest_data w); running := running w; fs := fs w;
     denied := denied w; clock := clock w; erp := erp w; log := log w |}.
Definition set_fs (f : gmap Path File -> gmap Path File) (w : World) : World :=
  {| latest_data := latest_data w; running := running w; fs := f (fs w);
     denied := denied w; clock := clock w; erp := erp w; log := log w |}.
Definition add_log (r : LogRecord) (w : World) : World :=
  {| latest_data := latest_data w; running := running w; fs := fs w;
     denied := denied w; clock := clock w; erp := erp w;
     log := (log w ++ [r])%list |}.

(** Stateful code that may raise. *)
Definition M (A : Type) : Type := World -> World * result A.

#[global] Instance M_ret : MRet M := fun _ a w => (w, Ok a).
#[global] Instance M_bind : MBind M := fun _ _ f m w =>
  match m w with
  | (w', Ok a) => f a w'
  | (w', Raise e) => (w', Raise e)
  end.

Definition raise {A : Type} (e : exn) : M A := fun w => (w, Raise e).
Definition lift {A : Type} (r : result A) : M A := fun w => (w, r).
Definition gets {A : Type} (f : World -> A) : M A := fun w => (w, Ok (f w)).
Definition modify (f : World -> World) : M unit := fun w => (f w, Ok tt).

(** [try: m  except Exception as e: h e] *)
Definition try_except {A : Type} (m : M A) (h : exn -> M A) : M A := fun w =>
  match m w with
  | (w', Ok a) => (w', Ok a)
  | (w', Raise e) => h e w'
  end.

(** [for x in l: f x] *)
Fixpoint for_each {A : Type} (l : list A) (f : A -> M unit) : M unit :=
  match l with
  | [] => mret tt
  | x :: rest => f x ≫= fun _ => for_each rest f
  end.

Notation "m1 ;; m2" := (m1 ≫= fun _ => m2)
  (at level 100, m2 at level 200, right associativity, only parsing).

Definition logger_info (msg : string) : M unit := modify (add_log (INFO msg)).
Definition logger_error (msg : string) : M unit := modify (add_log (ERROR msg)).

(** [datetime.now()] *)
Definition now : M datetime := gets clock.

(** [str(path)] *)
Definition path_str (p : Path) : string := String.concat "/" p.

(** [str(e)] *)
Definition exn_str (e : exn) : string :=
  match e with
  | KeyError k => "'" ++ k ++ "'"
  | TypeError m | ValueError m | AttributeError m | FetchError m => m
  | OSError p => "[Errno 13] Permission denied: '" ++ path_str p ++ "'"
  | FileNotFoundError p =>
      "[Errno 2] No such file or directory: '" ++ path_str p ++ "'"
  end.

(** Creating or overwriting a file with the given content. *)
Definition write_file (p : Path) (c : Content) : M unit := fun w =>
  if decide (p ∈ denied w) then (w, Raise (OSError p))
  else (set_fs (insert p {| mtime := epoch (clock w); content := c |}) w,
        Ok tt).

(** [shutil.copy(src, dst)]: the bytes of [src] under the name [dst]. *)
Definition shutil_copy (src dst : Path) : M unit := fun w =>
  match fs w !! src with
  | None => (w, Raise (FileNotFoundError src))
  | Some f => write_file dst (content f) w
  end.

(** [path.stat()] *)
Definition stat (p : Path) : M File := fun w =>
  match fs w !! p with
  | None => (w, Raise (FileNotFoundError p))
  | Some f => (w, Ok f)
  end.

(** [path.unlink()] *)
Definition unlink (p : Path) : M unit := fun w =>
  match fs w !! p with
  | None => (w, Raise (FileNotFoundError p))
  | Some _ =>
      if decide (p ∈ denied w) then (w, Raise (OSError p))
      else (set_fs (delete p) w, Ok tt)
  end.

(** Shell-style matching of a file name: [*] is any run of characters,
    [?] any one character, anything else stands for itself (the patterns
    of the source use no bracket class). *)
Fixpoint fnmatch_chars (pat : list ascii) (name : list ascii) : bool :=
  match pat with
  | [] => match name with [] => true | _ => false end
  | "*"%char :: pat' =>
      (fix star (s : list ascii) : bool :=
         fnmatch_chars pat' s ||
         match s with [] => false | _ :: s' => star s' end) name
  | "?"%char :: pat' =>
      match name with [] => false | _ :: s' => fnmatch_chars pat' s' end
  | c :: pat' =>
      match name with
      | [] => false
      | d :: s' => Ascii.eqb c d && fnmatch_chars pat' s'
      end
  end.

Definition fnmatch (name pat : string) : bool :=
  fnmatch_chars (list_ascii_of_string pat) (list_ascii_of_string name).

Fixpoint is_prefix (d p : Path) : bool :=
  match d, p with
  | [], _ => true
  | x :: d', y :: p' => String.eqb x y && is_prefix d' p'
  | _ :: _, [] => false
  end.

(** [dir.rglob(pattern)]: every file at any depth below [dir] whose own
    name matches. *)
Definition rglob_match (dir : Path) (pattern : string) (p : Path) : bool :=
  is_prefix dir p && (length dir <? length p)%nat &&
  fnmatch (List.last p "") pattern.

Definition rglob (dir : Path) (pattern : string) : M (list Path) :=
  gets (fun w => filter (fun p => rglob_match dir pattern p = true)
                        (map fst (map_to_list (fs w)))).

(** ** [ReportGenerator] *)

(** [dir / name] of [pathlib]. *)
Definition path_join (dir : Path) (name : string) : Path := (dir ++ [name])%list.
Infix "</>" := path_join (at level 40, left associativity).

Definition report_dir : Path := ["reports"].
Definition csv_dir : Path := report_dir </> "csv".

(** [pd.DataFrame(list_of_dicts)]: the columns are the keys in order of
    first appearance, a key a record lacks reads NaN. *)
Definition frame_of_records (recs : list Dict) : DataFrame :=
  let cols :=
    fold_left (fun acc d =>
      fold_left (fun acc kv =>
        if existsb (String.eqb (fst kv)) acc then acc
        else (acc ++ [fst kv])%list)
        d acc) recs [] in
  {| columns := cols;
     rows := map (fun d => map (fun c => default VNaN (assoc c d)) cols) recs |}.

(** [with pd.ExcelWriter(filename) as writer: ...]: leaving the block saves
    the workbook under [filename], also when the block raised, in which
    case the sheets written so far are saved and the exception goes on. *)
Definition with_ExcelWriter (filename : Path)
    (written : list (string * DataFrame))
    (rest : result (list (string * DataFrame))) : M unit :=
  match rest with
  | Ok more => write_file filename (Workbook (written ++ more)%list)
  | Raise e => write_file filename (Workbook written) ;; raise e
  end.

Definition generate_excel_reports
    (purchase_df production_df packing_df shipment_df : DataFrame) : M unit :=
  logger_info "Generating Excel reports..." ;;
  try_except
    (t ← now;
     let timestamp := strftime_compact t in
     let filename := report_dir </> ("daily_report_" ++ timestamp ++ ".xlsx") in
     let latest_filename := report_dir </> "daily_report.xlsx" in
     with_ExcelWriter filename
       [ ("Purchase", purchase_df); ("Production", production_df);
         ("Packing", packing_df); ("Shipment", shipment_df) ]
       (summary_data ← _create_summary purchase_df production_df
                                       packing_df shipment_df;
        mret [ ("Summary", frame_of_records summary_data) ]) ;;
     (* Save a copy as latest report *)
     shutil_copy filename latest_filename ;;
     logger_info ("Excel report generated: " ++ path_str filename))
    (fun e =>
       logger_error ("Failed to generate Excel report: " ++ exn_str e) ;;
       raise e).

Definition generate_csv_exports
    (purchase_df production_df packing_df shipment_df : DataFrame) : M unit :=
  logger_info "Generating CSV exports..." ;;
  try_except
    (t ← now;
     let timestamp := strftime_compact t in
     let datasets :=
       [ ("purchase_data", purchase_df); ("production_data", production_df);
         ("packing_data", packing_df); ("shipment_data", shipment_df) ] in
     for_each datasets (fun '(name, df) =>
       let filename := csv_dir </> (name ++ "_" ++ timestamp ++ ".csv") in
       let latest_filename := csv_dir </> (name ++ ".csv") in
       write_file filename (Csv df) ;;
       write_file latest_filename (Csv df) ;;
       logger_info ("CSV exported: " ++ path_str filename)))
    (fun e =>
       logger_error ("Failed to generate CSV exports: " ++ exn_str e) ;;
       raise e).

(** One loop of [cleanup_old_reports]. *)
Definition sweep (dir : Path) (pattern : string) (cutoff_time : Z)
    (what : string) : M unit :=
  files ← rglob dir pattern;
  for_each files (fun file_path =>
    st ← stat file_path;
    if (mtime st <? cutoff_time)%Z
    then unlink file_path ;;
         logger_info (what ++ path_str file_path)
    else mret tt).

Definition cleanup_old_reports (days : Z) : M unit :=
  logger_info ("Cleaning up reports older than " ++
               sign_str days ++ digits (Z.abs days) ++ " days...") ;;
  try_except
    (t ← now;
     let cutoff_time := (epoch t - days * 86400)%Z in
     sweep report_dir "*_*.xlsx" cutoff_time "Deleted old report: " ;;
     sweep csv_dir "*_*.csv" cutoff_time "Deleted old CSV: ")
    (fun e => logger_error ("Error during cleanup: " ++ exn_str e)).

(** ** [ERPDataExtractor] *)

Definition fetch (what : string) (answer : Backend -> result DataFrame)
  : M DataFrame :=
  logger_info ("Fetching " ++ what ++ " data...") ;;
  r ← gets (fun w => answer (erp w));
  df ← lift r;
  logger_info ("Retrieved " ++ digits (len df) ++ " " ++ what ++ " records") ;;
  mret df.

Definition get_purchase_data : M DataFrame := fetch "purchase" purchase_orders.
Definition get_production_data : M DataFrame := fetch "production" production_runs.
Definition get_packing_data : M DataFrame := fetch "packing" packing_jobs.
Definition get_shipment_data : M DataFrame := fetch "shipment" shipments.

(** ** [ERPAutomationSystem] *)

(** [latest_data[key] = value], one assignment per key. *)
Definition set_purchase (df : DataFrame) (d : LatestData) : LatestData :=
  {| purchase := Some df; production := production d; packing := packing d;
     shipment := shipment d; last_updated := last_updated d |}.
Definition set_production (df : DataFrame) (d : LatestData) : LatestData :=
  {| purchase := purchase d; production := Some df; packing := packing d;
     shipment := shipment d; last_updated := last_updated d |}.
Definition set_packing (df : DataFrame) (d : LatestData) : LatestData :=
  {| purchase := purchase d; production := production d; packing := Some df;
     shipment := shipment d; last_updated := last_updated d |}.
Definition set_shipment (df : DataFrame) (d : LatestData) : LatestData :=
  {| purchase := purchase d; production := production d; packing := packing d;
     shipment := Some df; last_updated := last_updated d |}.
Definition set_last_updated (t : datetime) (d : LatestData) : LatestData :=
  {| purchase := purchase d; production := production d; packing := packing d;
     shipment := shipment d; last_updated := Some t |}.

(** The five assignments made under [data_lock]. *)
Definition update_global_state
    (purchase_data production_data packing_data shipment_data : DataFrame)
  : M unit :=
  modify (set_latest_data (set_purchase purchase_data)) ;;
  modify (set_latest_data (set_production production_data)) ;;
  modify (set_latest_data (set_packing packing_data)) ;;
  modify (set_latest_data (set_shipment shipment_data)) ;;
  t ← now;
  modify (set_latest_data (set_last_updated t)).

(** [fetch_and_process_data] run on its own, with [data_lock] free. *)
Definition fetch_and_process_data : M unit :=
  logger_info "Starting data fetch and processing..." ;;
  try_except
    (purchase_data ← get_purchase_data;
     production_data ← get_production_data;
     packing_data ← get_packing_data;
     shipment_data ← get_shipment_data;
     update_global_state purchase_data production_data
                         packing_data shipment_data ;;
     generate_excel_reports purchase_data production_data
                            packing_data shipment_data ;;
     generate_csv_exports purchase_data production_data
                          packing_data shipment_data ;;
     logger_info "Data processing completed successfully")
    (fun e => logger_error ("Error in data processing: " ++ exn_str e)).

(** * Vocabulary of the properties *)

(** ** What the summary figures mean, stated on the rows themselves *)

(** The status cell of a row. *)
Definition status_of (df : DataFrame) (r : list value) : value :=
  match index_of "status" (columns df) with
  | Some i => nth i r VNaN
  | None => VNaN
  end.

Definition status_among (xs : list string) (v : value) : bool :=
  match v with
  | VStr t => existsb (String.eqb t) xs
  | _ => false
  end.

(** Number of records whose status is one of [xs]. *)
Definition records_with_status (df : DataFrame) (xs : list string) : Z :=
  Z.of_nat (length (List.filter (fun r => status_among xs (status_of df r))
                                (rows df))).

Definition hundredths_of (x : number) : Z :=
  match x with
  | Int n => 100 * n
  | Float h => h
  end.

Definition cell_hundredths (v : value) : Z :=
  match v with
  | VNum x => hundredths_of x
  | _ => 0
  end.

(** Sum of a column, in hundredths; zero for a column that is absent. *)
Definition column_total (c : string) (df : DataFrame) : Z :=
  match index_of c (columns df) with
  | Some i => fold_right (fun r acc => cell_hundredths (nth i r VNaN) + acc)
                         0 (rows df)
  | None => 0
  end.

Definition numeric_cell (v : value) : bool :=
  match v with
  | VNum _ | VNaN => true
  | _ => false
  end.

(** Every cell of column [c], if the frame has it, is a number or NaN. *)
Definition numeric_column (c : string) (df : DataFrame) : bool :=
  match index_of c (columns df) with
  | Some i => forallb (fun r => numeric_cell (nth i r VNaN)) (rows df)
  | None => true
  end.

(** The part of a dataset's fixed schema that the summary relies on. *)
Definition summarisable (agg : string) (df : DataFrame) : bool :=
  has_column "status" df && numeric_column agg df.

(** A row of the summary sheet, with its counts read off the records. *)
Definition summary_row (dept : string) (df : DataFrame)
    (completed : list string) (total_key total : string) : Dict :=
  [ ("Department", VStr dept);
    ("Total Records", vint (len df));
    ("Pending", vint (records_with_status df ["Pending"]));
    ("Completed", vint (records_with_status df completed));
    (total_key, VStr total) ].

(** [txt] is the aggregate cell of the summary for column [c] of [df]. *)
Definition total_is (fmt : number -> string) (c : string) (df : DataFrame)
    (txt : string) : Prop :=
  if has_column c df
  then exists x, column_sum df c = Ok x /\
                 hundredths_of x = column_total c df /\ txt = fmt x
  else txt = "N/A".

(** ** Sample datasets *)

Definition purchase_row (po status : string) (amount : Z) : list value :=
  [VStr po; VStr status; VNum (Float amount)].

(** Ten purchase orders: 3 Pending, 4 Approved, 3 Delivered, 500.00 each. *)
Definition ten_purchases : DataFrame :=
  {| columns := ["po_id"; "status"; "amount"];
     rows := [ purchase_row "PO0001" "Pending" 50000;
               purchase_row "PO0002" "Approved" 50000;
               purchase_row "PO0003" "Delivered" 50000;
               purchase_row "PO0004" "Approved" 50000;
               purchase_row "PO0005" "Pending" 50000;
               purchase_row "PO0006" "Delivered" 50000;
               purchase_row "PO0007" "Approved" 50000;
               purchase_row "PO0008" "Pending" 50000;
               purchase_row "PO0009" "Delivered" 50000;
               purchase_row "PO0010" "Approved" 50000 ] |}.

Definition quantity_row (id status : string) (quantity : Z) : list value :=
  [VStr id; VStr status; VNum (Int quantity)].

Definition two_runs : DataFrame :=
  {| columns := ["id"; "status"; "quantity"];
     rows := [ quantity_row "A1" "Completed" 1200;
               quantity_row "A2" "Pending" 300 ] |}.

(** ** Dataset kinds *)

(** The four dataset kinds, in the order the code handles them. *)
Inductive Kind : Type := KPurchase | KProduction | KPacking | KShipment.

Definition kind_name (k : Kind) : string :=
  match k with
  | KPurchase => "purchase" | KProduction => "production"
  | KPacking => "packing" | KShipment => "shipment"
  end.

Definition kind_index (k : Kind) : nat :=
  match k with
  | KPurchase => 0 | KProduction => 1 | KPacking => 2 | KShipment => 3
  end.

(** The column a kind is aggregated on. *)
Definition aggregate_column (k : Kind) : string :=
  match k with KPurchase => "amount" | _ => "quantity" end.

Definition pick {A : Type} (k : Kind) (p pr pk s : A) : A :=
  match k with
  | KPurchase => p | KProduction => pr | KPacking => pk | KShipment => s
  end.

(** The summary row of a kind that has no record. *)
Definition zero_row (k : Kind) : Dict :=
  [ ("Department",
     VStr (pick k "Purchase" "Production" "Packing" "Shipment"));
    ("Total Records", vint 0);
    ("Pending", vint 0);
    ("Completed", vint 0);
    (pick k "Total Value" "Total Quantity" "Total Packed" "Total Shipped",
     VStr (pick k (currency_prefix ++ "0.00") "0" "0" "0")) ].

Definition no_shipments : DataFrame :=
  {| columns := ["shipment_id"; "customer_name"; "destination"; "quantity";
                 "shipment_date"; "expected_delivery"; "status"; "transporter"];
     rows := [] |}.

(** ** Live summary against the summary sheet *)

Definition snapshot (p pr pk s : DataFrame) (t : datetime) : LatestData :=
  {| purchase := Some p; production := Some pr; packing := Some pk;
     shipment := Some s; last_updated := Some t |}.


(** [summary[i][key]] of the summary sheet. *)
Definition sheet_cell (i : nat) (key : string) (summary : list Dict)
  : option value :=
  d ← summary !! i; assoc key d.

Definition one_shipment (status : string) : DataFrame :=
  {| columns := ["shipment_id"; "quantity"; "status"];
     rows := [ [VStr "SHIP0001"; VNum (Int 75); VStr status] ] |}.

Definition eight_o_clock : datetime :=
  {| epoch := 1709625600; year := 2024; month := 3; day := 5;
     hour := 8; minute := 0; second := 0 |}.


(** ** Department names *)

Definition valid_department (dept_name : string) : bool :=
  existsb (String.eqb dept_name)
          ["purchase"; "production"; "packing"; "shipment"].

(** ** Report artifacts *)

Definition latest_workbook : Path := report_dir </> "daily_report.xlsx".
Definition stamped_workbook (ts : string) : Path :=
  report_dir </> ("daily_report_" ++ ts ++ ".xlsx").
Definition latest_csv (name : string) : Path := csv_dir </> (name ++ ".csv").
Definition stamped_csv (name ts : string) : Path :=
  csv_dir </> (name ++ "_" ++ ts ++ ".csv").

Definition csv_datasets (p pr pk s : DataFrame) : list (string * DataFrame) :=
  [ ("purchase_data", p); ("production_data", pr);
    ("packing_data", pk); ("shipment_data", s) ].

(** The file a write made in world [w] leaves behind. *)
Definition written (w : World) (c : Content) : File :=
  {| mtime := epoch (clock w); content := c |}.

(** A backend that answers every query. *)
Definition demo_backend : Backend :=
  {| purchase_orders := Ok ten_purchases; production_runs := Ok two_runs;
     packing_jobs := Ok two_runs; shipments := Ok no_shipments |}.

Definition seconds_per_day : Z := 86400.

(** Reports of an earlier cycle, forty days old at [eight_o_clock]: the
    workbook and the purchase export, each under its stamped and under its
    latest name. *)
Definition old_reports : gmap Path File :=
  let t0 := epoch eight_o_clock - 40 * seconds_per_day in
  let wb := {| mtime := t0; content := Workbook [("Purchase", no_shipments)] |} in
  let pc := {| mtime := t0; content := Csv no_shipments |} in
  <[ stamped_workbook "20240125_080000" := wb ]>
  (<[ latest_workbook := wb ]>
  (<[ stamped_csv "purchase_data" "20240125_080000" := pc ]>
  (<[ latest_csv "purchase_data" := pc ]> ∅))).

Definition world_with (files : gmap Path File) (no_write : gset Path) : World :=
  {| latest_data := initial_latest_data; running := false; fs := files;
     denied := no_write; clock := eight_o_clock; erp := demo_backend;
     log := [] |}.

(** ** Refresh cycle *)

Definition is_raise {A : Type} (r : result A) : bool :=
  match r with Ok _ => false | Raise _ => true end.

(** At least one of the four queries fails. *)
Definition some_fetch_fails (b : Backend) : bool :=
  is_raise (purchase_orders b) || is_raise (production_runs b) ||
  is_raise (packing_jobs b) || is_raise (shipments b).

(** The four queries answer [p], [pr], [pk] and [s]. *)
Definition answers (p pr pk s : DataFrame) : Backend :=
  {| purchase_orders := Ok p; production_runs := Ok pr;
     packing_jobs := Ok pk; shipments := Ok s |}.

(** The world a cycle has reached when it has fetched and published. *)
Definition published (p pr pk s : DataFrame) (w : World) : World :=
  fst ((logger_info "Starting data fetch and processing..." ;;
        get_purchase_data ;; get_production_data ;;
        get_packing_data ;; get_shipment_data ;;
        update_global_state p pr pk s) w).

(** The two report calls of a cycle, in the order it makes them. *)
Definition generate_reports (p pr pk s : DataFrame) : M unit :=
  generate_excel_reports p pr pk s ;; generate_csv_exports p pr pk s.

(** A backend whose packing query fails. *)
Definition packing_down : Backend :=
  {| purchase_orders := Ok ten_purchases; production_runs := Ok two_runs;
     packing_jobs := Raise (FetchError "connection lost");
     shipments := Ok no_shipments |}.

Definition world_of (b : Backend) (files : gmap Path File)
    (no_write : gset Path) (d : LatestData) : World :=
  {| latest_data := d; running := true; fs := files; denied := no_write;
     clock := eight_o_clock; erp := b; log := [] |}.

(** ** Threads

    [POST /api/refresh] starts a thread on [fetch_and_process_data] and
    returns at once; a scheduled job runs the same function; every request
    is served on a thread of its own ([threaded=True]).  A thread advances
    one statement at a time, and threads interleave in any order.  The
    only synchronisation in the source is [data_lock]. *)

(** The local variables of a cycle once its fetches are done. *)
Record Fetched : Type := mk_fetched {
  purchase_data : DataFrame;
  production_data : DataFrame;
  packing_data : DataFrame;
  shipment_data : DataFrame
}.

(** Where a thread running [fetch_and_process_data] stands. *)
Inductive RefreshPc : Type :=
| AtStart
| AtFetchPurchase
| AtFetchProduction (p : DataFrame)
| AtFetchPacking (p pr : DataFrame)
| AtFetchShipment (p pr pk : DataFrame)
| AtAcquire (d : Fetched)            (* with data_lock: *)
| AtSetPurchase (d : Fetched)        (* latest_data['purchase'] = ... *)
| AtSetProduction (d : Fetched)
| AtSetPacking (d : Fetched)
| AtSetShipment (d : Fetched)
| AtSetLastUpdated (d : Fetched)
| AtRelease (d : Fetched)            (* leaving the with block *)
| AtExcel (d : Fetched)
| AtCsv (d : Fetched)
| AtLogDone
| AtExcept (e : exn)                 (* except Exception as e: *)
| Returned.

Inductive Query : Type :=
| Summary                            (* GET /api/summary *)
| Department (dept_name : string).   (* GET /api/department/<dept_name> *)

Definition run_query (q : Query) (d : LatestData) : result response :=
  match q with
  | Summary => get_summary d
  | Department dept_name => get_department_data dept_name d
  end.

(** Where a thread serving a query stands. *)
Inductive HandlerPc : Type :=
| HAcquire                           (* with data_lock: *)
| HBody
| HRelease (r : result response)
| Responded (r : result response).

Inductive Thread : Type :=
| Refresh (pc : RefreshPc)
| Handler (q : Query) (pc : HandlerPc).

Record Config : Type := mk_config {
  world : World;
  data_lock : option nat;            (* the thread holding data_lock *)
  threads : list Thread;
  publishes : list LatestData        (* history: what each publish stored *)
}.

Definition with_world (c : Config) (w : World) : Config :=
  {| world := w; data_lock := data_lock c; threads := threads c;
     publishes := publishes c |}.
Definition with_lock (c : Config) (l : option nat) : Config :=
  {| world := world c; data_lock := l; threads := threads c;
     publishes := publishes c |}.
Definition with_threads (c : Config) (ts : list Thread) : Config :=
  {| world := world c; data_lock := data_lock c; threads := ts;
     publishes := publishes c |}.
Definition record_publish (c : Config) (d : LatestData) : Config :=
  {| world := world c; data_lock := data_lock c; threads := threads c;
     publishes := (publishes c ++ [d])%list |}.

(** One statement inside the [try] block: on an exception control goes to
    the handler. *)
Definition do_op {A : Type} (m : M A) (k : A -> RefreshPc) (c : Config)
  : option (RefreshPc * Config) :=
  match m (world c) with
  | (w', Ok a) => Some (k a, with_world c w')
  | (w', Raise e) => Some (AtExcept e, with_world c w')
  end.

(** One assignment to [latest_data]. *)
Definition assign (f : LatestData -> LatestData) (next : RefreshPc)
    (c : Config) : option (RefreshPc * Config) :=
  Some (next, with_world c (set_latest_data f (world c))).

(** Entering [with data_lock:] blocks while another thread holds it. *)
Definition acquire {Pc : Type} (i : nat) (next : Pc) (c : Config)
  : option (Pc * Config) :=
  match data_lock c with
  | None => Some (next, with_lock c (Some i))
  | Some _ => None
  end.

Definition release {Pc : Type} (next : Pc) (c : Config)
  : option (Pc * Config) :=
  Some (next, with_lock c None).

Definition refresh_step (i : nat) (pc : RefreshPc) (c : Config)
  : option (RefreshPc * Config) :=
  match pc with
  | AtStart =>
      do_op (logger_info "Starting data fetch and processing...")
            (fun _ => AtFetchPurchase) c
  | AtFetchPurchase => do_op get_purchase_data AtFetchProduction c
  | AtFetchProduction p => do_op get_production_data (AtFetchPacking p) c
  | AtFetchPacking p pr => do_op get_packing_data (AtFetchShipment p pr) c
  | AtFetchShipment p pr pk =>
      do_op get_shipment_data (fun s => AtAcquire (mk_fetched p pr pk s)) c
  | AtAcquire d => acquire i (AtSetPurchase d) c
  | AtSetPurchase d =>
      assign (set_purchase (purchase_data d)) (AtSetProduction d) c
  | AtSetProduction d =>
      assign (set_production (production_data d)) (AtSetPacking d) c
  | AtSetPacking d =>
      assign (set_packing (packing_data d)) (AtSetShipment d) c
  | AtSetShipment d =>
      assign (set_shipment (shipment_data d)) (AtSetLastUpdated d) c
  | AtSetLastUpdated d =>
      let t := clock (world c) in
      assign (set_last_updated t) (AtRelease d)
        (record_publish c
           (snapshot (purchase_data d) (production_data d)
                     (packing_data d) (shipment_data d) t))
  | AtRelease d => release (AtExcel d) c
  | AtExcel d =>
      do_op (generate_excel_reports (purchase_data d) (production_data d)
                                    (packing_data d) (shipment_data d))
            (fun _ => AtCsv d) c
  | AtCsv d =>
      do_op (generate_csv_exports (purchase_data d) (production_data d)
                                  (packing_data d) (shipment_data d))
            (fun _ => AtLogDone) c
  | AtLogDone =>
      do_op (logger_info "Data processing completed successfully")
            (fun _ => Returned) c
  | AtExcept e =>
      do_op (logger_error ("Error in data processing: " ++ exn_str e))
            (fun _ => Returned) c
  | Returned => None
  end.

Definition handler_step (i : nat) (q : Query) (pc : HandlerPc) (c : Config)
  : option (HandlerPc * Config) :=
  match pc with
  | HAcquire => acquire i HBody c
  | HBody => Some (HRelease (run_query q (latest_data (world c))), c)
  | HRelease r => release (Responded r) c
  | Responded _ => None
  end.

Definition thread_step (i : nat) (t : Thread) (c : Config)
  : option (Thread * Config) :=
  match t with
  | Refresh pc =>
      match refresh_step i pc c with
      | Some (pc', c') => Some (Refresh pc', c')
      | None => None
      end
  | Handler q pc =>
      match handler_step i q pc c with
      | Some (pc', c') => Some (Handler q pc', c')
      | None => None
      end
  end.

Inductive Event : Type :=
| Trigger                            (* a refresh is requested *)
| Request (q : Query)                (* a query arrives *)
| Run (i : nat)                      (* thread [i] runs its next statement *)
| Outside (t : datetime) (b : Backend) (no_write : gset Path).
                                     (* time passes, the ERP data and the
                                        disk permissions change *)

Definition spawn (t : Thread) (c : Config) : Config :=
  with_threads c (threads c ++ [t])%list.

Definition set_outside (t : datetime) (b : Backend) (no_write : gset Path)
    (w : World) : World :=
  {| latest_data := latest_data w; running := running w; fs := fs w;
     denied := no_write; clock := t; erp := b; log := log w |}.

Definition apply_event (e : Event) (c : Config) : Config :=
  match e with
  | Trigger => spawn (Refresh AtStart) c
  | Request q => spawn (Handler q HAcquire) c
  | Run i =>
      match threads c !! i with
      | Some t =>
          match thread_step i t c with
          | Some (t', c') => with_threads c' (<[i := t']> (threads c'))
          | None => c                (* blocked on the lock, or finished *)
          end
      | None => c
      end
  | Outside t b no_write => with_world c (set_outside t b no_write (world c))
  end.

Definition run (evs : list Event) (c : Config) : Config :=
  fold_left (fun c e => apply_event e c) evs c.

(** The process right after start-up, before any thread exists. *)
Definition boot (w : World) : Config :=
  {| world := w; data_lock := None; threads := []; publishes := [] |}.

(** ** Counting refreshes and fetches *)

Definition is_trigger (e : Event) : bool :=
  match e with Trigger => true | _ => false end.

Definition triggers (evs : list Event) : nat :=
  length (List.filter is_trigger evs).

Definition is_refresh (t : Thread) : bool :=
  match t with Refresh _ => true | Handler _ _ => false end.

(** Number of refresh cycles started so far. *)
Definition cycles (c : Config) : nat :=
  length (List.filter is_refresh (threads c)).

(** The record [get_<kind>_data] logs when it is entered. *)
Definition is_fetch_record (k : Kind) (r : LogRecord) : bool :=
  match r with
  | INFO m => String.eqb m ("Fetching " ++ kind_name k ++ " data...")
  | ERROR _ => false
  end.

(** Number of times [get_<kind>_data] has been invoked. *)
Definition fetch_calls (k : Kind) (w : World) : nat :=
  length (List.filter (is_fetch_record k) (log w)).

Definition has_returned (t : Thread) : bool :=
  match t with
  | Refresh Returned => true
  | Refresh _ => false
  | Handler _ (Responded _) => true
  | Handler _ _ => false
  end.

(** How many of the four fetch statements a cycle standing at [pc] has
    gone past (for a cycle in its handler or back from it, at most). *)
Definition fetches_passed (pc : RefreshPc) : nat :=
  match pc with
  | AtStart | AtFetchPurchase => 0
  | AtFetchProduction _ => 1
  | AtFetchPacking _ _ => 2
  | AtFetchShipment _ _ _ => 3
  | _ => 4
  end.

(** The thread is a cycle that has gone past [get_<kind>_data]. *)
Definition reached (k : Kind) (t : Thread) : bool :=
  match t with
  | Refresh pc => (kind_index k <? fetches_passed pc)%nat
  | Handler _ _ => false
  end.

(** Number of cycles that have gone past [get_<kind>_data]. *)
Definition cycles_past (k : Kind) (c : Config) : nat :=
  length (List.filter (reached k) (threads c)).

(** What a run leaves behind: the dictionary, the files and the log. *)
Definition outcome (w : World)
  : LatestData * list (Path * File) * list LogRecord :=
  (latest_data w, map_to_list (fs w), log w).

(** ** Publishing and reading under the lock *)

(** The thread is a cycle inside its [with data_lock:] block. *)
Definition in_publish (t : Thread) : bool :=
  match t with
  | Refresh (AtSetPurchase _) | Refresh (AtSetProduction _)
  | Refresh (AtSetPacking _) | Refresh (AtSetShipment _)
  | Refresh (AtSetLastUpdated _) | Refresh (AtRelease _) => true
  | _ => false
  end.

(** The thread is a query inside its [with data_lock:] block. *)
Definition in_read (t : Thread) : bool :=
  match t with
  | Handler _ HBody | Handler _ (HRelease _) => true
  | _ => false
  end.

Definition holds_lock (t : Thread) : bool := in_publish t || in_read t.

(** What the last completed publish stored; the initial dictionary before
    the first one. *)
Definition current (c : Config) : LatestData :=
  default initial_latest_data (last (publishes c)).

(** What the dictionary holds while thread [t] holds the lock, given the
    last completed publish [cur]: a cycle part-way through its five
    assignments has overwritten the keys it has gone past. *)
Definition expected_store (t : Thread) (cur : LatestData) : LatestData :=
  match t with
  | Refresh (AtSetProduction d) => set_purchase (purchase_data d) cur
  | Refresh (AtSetPacking d) =>
      set_production (production_data d) (set_purchase (purchase_data d) cur)
  | Refresh (AtSetShipment d) =>
      set_packing (packing_data d)
        (set_production (production_data d)
           (set_purchase (purchase_data d) cur))
  | Refresh (AtSetLastUpdated d) =>
      set_shipment (shipment_data d)
        (set_packing (packing_data d)
           (set_production (production_data d)
              (set_purchase (purchase_data d) cur)))
  | _ => cur
  end.

(** All four datasets and the timestamp are set. *)
Definition complete (d : LatestData) : Prop :=
  exists p pr pk s t, d = snapshot p pr pk s t.

(** A response a query thread has computed is the route's answer on one
    of the dictionaries [ds]. *)
Definition answered_from (ds : list LatestData) (t : Thread) : Prop :=
  match t with
  | Handler q (HRelease r) | Handler q (Responded r) =>
      exists d, d ∈ ds /\ r = run_query q d
  | _ => True
  end.

(** The lock discipline of a configuration. *)
Definition lock_inv (c : Config) : Prop :=
  (forall i t, threads c !! i = Some t -> holds_lock t = true ->
               data_lock c = Some i) /\
  match data_lock c with
  | None => latest_data (world c) = current c
  | Some i =>
      exists t, threads c !! i = Some t /\ holds_lock t = true /\
                latest_data (world c) = expected_store t (current c)
  end /\
  Forall (answered_from (initial_latest_data :: publishes c)) (threads c) /\
  Forall complete (publishes c).

Inductive StepKind : Type := Quiet | Acquire | Locked | Release.

Definition classify (t : Thread) : StepKind :=
  match t with
  | Refresh (AtAcquire _) | Handler _ HAcquire => Acquire
  | Refresh (AtSetPurchase _) | Refresh (AtSetProduction _)
  | Refresh (AtSetPacking _) | Refresh (AtSetShipment _)
  | Refresh (AtSetLastUpdated _) | Handler _ HBody => Locked
  | Refresh (AtRelease _) | Handler _ (HRelease _) => Release
  | _ => Quiet
  end.

Definition nine_o_clock : datetime :=
  {| epoch := 1709629200; year := 2024; month := 3; day := 5;
     hour := 9; minute := 0; second := 0 |}.

(** The backend an hour later: one shipment has been dispatched. *)
Definition later_backend : Backend :=
  {| purchase_orders := Ok ten_purchases; production_runs := Ok two_runs;
     packing_jobs := Ok two_runs;
     shipments := Ok (one_shipment "Dispatched") |}.

(** A morning with two refreshes and two queries, interleaved: a summary
    query served before the first publish, and a shipment query that gets
    the lock between the first publish and the second. *)
Definition busy_morning : list Event :=
  ([ Trigger; Request Summary; Run 0; Run 0; Run 1; Run 0; Run 1; Run 1 ] ++
   repeat (Run 0) 8 ++
   [ Outside nine_o_clock later_backend ∅;
     Trigger; Request (Department "shipment"); Run 3; Run 2; Run 2;
     Run 0; Run 3; Run 2; Run 2; Run 2; Run 2; Run 3; Run 0; Run 3 ] ++
   repeat (Run 2) 7 ++ [ Run 0; Run 0 ] ++ repeat (Run 2) 3)%list.

(** * More of the code *)

(** ** File names and the sweep patterns *)

(** A pattern character that stands for itself. *)
Definition plain_char (c : ascii) : bool :=
  negb (Ascii.eqb c "*") && negb (Ascii.eqb c "?").

(** The text has no wildcard. *)
Definition plain (s : string) : bool :=
  forallb plain_char (list_ascii_of_string s).

(** The base names of the four CSV exports. *)
Definition csv_base_names : list string :=
  [ "purchase_data"; "production_data"; "packing_data"; "shipment_data" ].

(** ** Retention sweep *)

(** The files one loop of the sweep visits. *)
Definition candidates (dir : Path) (pattern : string) (w : World) : list Path :=
  filter (fun p => rglob_match dir pattern p = true)
         (map fst (map_to_list (fs w))).

(** What one loop of the sweep does with one file. *)
Definition sweep_step (cutoff_time : Z) (what : string) (file_path : Path)
  : M unit :=
  st ← stat file_path;
  if (mtime st <? cutoff_time)%Z
  then unlink file_path ;;
       logger_info (what ++ path_str file_path)
  else mret tt.

(** [cutoff_time] of a sweep started in world [w]. *)
Definition cutoff_of (days : Z) (w : World) : Z :=
  (epoch (clock w) - days * 86400)%Z.

(** The path is visited by one of the two loops. *)
Definition sweep_candidate (p : Path) : bool :=
  rglob_match report_dir "*_*.xlsx" p || rglob_match csv_dir "*_*.csv" p.

(** The file is older than the cutoff of a sweep started in [w]. *)
Definition expired (days : Z) (w : World) (f : File) : bool :=
  (mtime f <? cutoff_of days w)%Z.

(** No file the sweep wants to delete is protected against deletion. *)
Definition sweep_unhindered (days : Z) (w : World) : Prop :=
  forall p f, fs w !! p = Some f -> sweep_candidate p = true ->
              expired days w f = true -> p ∉ denied w.

(** Between [w] and [w'] only files and log records can differ. *)
Definition only_files_and_log (w w' : World) : Prop :=
  latest_data w' = latest_data w /\ running w' = running w /\
  denied w' = denied w /\ clock w' = clock w /\ erp w' = erp w.

(** Between [w] and [w'] the only change to the files is that some
    expired, unprotected members of [l] are gone. *)
Definition swept (cutoff_time : Z) (l : list Path) (w w' : World) : Prop :=
  only_files_and_log w w' /\
  forall q,
    fs w' !! q = fs w !! q \/
    (fs w' !! q = None /\ q ∈ l /\
     exists f, fs w !! q = Some f /\ (mtime f <? cutoff_time)%Z = true /\
               q ∉ denied w).

(** Three stamped workbooks, 29, 30 and 31 days old at [eight_o_clock]. *)
Definition aged_workbook (age_days : Z) : File :=
  {| mtime := epoch eight_o_clock - age_days * 86400;
     content := Workbook [("Purchase", no_shipments)] |}.

Definition aged_reports : gmap Path File :=
  <[ stamped_workbook "20240205_080000" := aged_workbook 29 ]>
  (<[ stamped_workbook "20240204_080000" := aged_workbook 30 ]>
  (<[ stamped_workbook "20240203_080000" := aged_workbook 31 ]> ∅)).

(** ** What the report writer writes *)

(** The ten files of one report run stamped [ts]. *)
Definition artifact_paths (ts : string) : list Path :=
  stamped_workbook ts :: latest_workbook ::
  flat_map (fun name => [stamped_csv name ts; latest_csv name]) csv_base_names.

(** The sheets of the workbook, given the rows of the summary. *)
Definition workbook_sheets (p pr pk s : DataFrame) (summary : list Dict)
  : list (string * DataFrame) :=
  [ ("Purchase", p); ("Production", pr); ("Packing", pk); ("Shipment", s);
    ("Summary", frame_of_records summary) ].

(** ** One cycle, whatever happens *)

Definition is_ok {A : Type} (r : result A) : bool := negb (is_raise r).

(** The queries that come before the query of kind [k] all answer. *)
Definition earlier_answer (k : Kind) (b : Backend) : bool :=
  match k with
  | KPurchase => true
  | KProduction => is_ok (purchase_orders b)
  | KPacking => is_ok (purchase_orders b) && is_ok (production_runs b)
  | KShipment => is_ok (purchase_orders b) && is_ok (production_runs b) &&
                 is_ok (packing_jobs b)
  end.

(** ** The query routes on a published snapshot *)


(** [record[c]] of one record of [to_dict(orient='records')]. *)
Definition record_field (c : string) (record : json) : option json :=
  match record with
  | JObj fields => assoc c fields
  | _ => None
  end.




(** ** [download_report] *)

(** [Path('a/b/c')]: the components of a relative path written with
    single slashes, as the literals of [file_map] are. *)
Fixpoint path_parts (s : string) (cur : string) : list string :=
  match s with
  | EmptyString => [cur]
  | String c s' =>
      if Ascii.eqb c "/" then cur :: path_parts s' ""
      else path_parts s' (cur ++ String c "")
  end.

Definition Path_of (s : string) : Path := path_parts s "".

(** What a route hands back: a JSON response, or a file sent as an
    attachment. *)
Inductive reply : Type :=
| Json (r : response)
| Attachment (file_path : Path) (f : File).

Definition file_map : list (string * string) :=
  [ ("excel", "reports/daily_report.xlsx");
    ("purchase_csv", "reports/csv/purchase_data.csv");
    ("production_csv", "reports/csv/production_data.csv");
    ("packing_csv", "reports/csv/packing_data.csv");
    ("shipment_csv", "reports/csv/shipment_data.csv") ].

(** [file_path.exists()] *)
Definition path_exists (p : Path) : M bool :=
  gets (fun w => match fs w !! p with Some _ => true | None => false end).

(** [send_file(file_path, as_attachment=True)]: the file as it is when the
    route returns.  The process runs from the application directory, so a
    relative name denotes the same file here and in [path_exists]. *)
Definition send_file (p : Path) : M reply :=
  f ← stat p; mret (Attachment p f).

Definition download_report (report_type : string) : M reply :=
  match assoc report_type file_map with
  | None => mret (Json (error_response "Invalid report type" 400))
  | Some name =>
      let file_path := Path_of name in
      path_exists file_path ≫= fun found : bool =>
      if found then send_file file_path
      else mret (Json (error_response "Report not found" 404))
  end.

(** The five reports, by what the report writer produces. *)
Inductive Report : Type :=
| TheWorkbook
| ExportOf (k : Kind).

Definition report_type_of (rt : Report) : string :=
  match rt with
  | TheWorkbook => "excel"
  | ExportOf k => kind_name k ++ "_csv"
  end.

(** The latest name under which the report writer leaves a report. *)
Definition latest_artifact (rt : Report) : Path :=
  match rt with
  | TheWorkbook => latest_workbook
  | ExportOf k => latest_csv (kind_name k ++ "_data")
  end.

(** What the report writer puts into a report. *)
Definition artifact_content (rt : Report) (p pr pk s : DataFrame)
    (summary : list Dict) : Content :=
  match rt with
  | TheWorkbook => Workbook (workbook_sheets p pr pk s summary)
  | ExportOf k => Csv (pick k p pr pk s)
  end.

Definition all_reports : list Report :=
  [ TheWorkbook; ExportOf KPurchase; ExportOf KProduction;
    ExportOf KPacking; ExportOf KShipment ].

(** ** The summary sheet as a frame *)

Definition summary_columns : list string :=
  [ "Department"; "Total Records"; "Pending"; "Completed";
    "Total Value"; "Total Quantity"; "Total Packed"; "Total Shipped" ].

(** A frame that lacks the status column. *)
Definition orders_without_status : DataFrame :=
  {| columns := ["po_number"; "amount"];
     rows := [ [VStr "PO0001"; VNum (Float 125000)] ] |}.

(** The four data sheets, which the workbook holds before the summary is
    computed. *)
Definition data_sheets (p pr pk s : DataFrame) : list (string * DataFrame) :=
  [ ("Purchase", p); ("Production", pr); ("Packing", pk); ("Shipment", s) ].

(** ** Exports, dataset by dataset *)

(** The base name of the export of a dataset. *)
Definition export_name (k : Kind) : string := kind_name k ++ "_data".

(** The exports of the datasets before [k] can be written. *)
Definition earlier_exports_free (k : Kind) (w : World) : Prop :=
  forall k', (kind_index k' < kind_index k)%nat ->
    (stamped_csv (export_name k') (strftime_compact (clock w)) ∉ denied w) /\
    (latest_csv (export_name k') ∉ denied w).

(** * Properties *)

(** ** Summary sheet *)

Lemma select_map {A : Type} (h : A -> bool) (l : list A) :
  select l (map h l) = List.filter h l.
Proof.
  induction l as [|x l IH]; simpl; [reflexivity|].
  rewrite IH. destruct (h x); reflexivity.
Qed.

Lemma has_column_index c df :
  has_column c df = true -> exists i, index_of c (columns df) = Some i.
Proof.
  unfold has_column. destruct (index_of c (columns df)) as [i|]; [eauto|discriminate].
Qed.

Lemma count_status_in_spec df xs :
  has_column "status" df = true ->
  count_status_in df xs = Ok (records_with_status df xs).
Proof.
  intros [i Hi]%has_column_index.
  unfold count_status_in, getitem, records_with_status, status_of, len, mask.
  rewrite Hi. simpl. unfold isin. rewrite map_map.
  rewrite (select_map (fun r => status_among xs (nth i r VNaN))).
  reflexivity.
Qed.

Lemma count_status_spec df x :
  has_column "status" df = true ->
  count_status df x = Ok (records_with_status df [x]).
Proof.
  intros [i Hi]%has_column_index.
  unfold count_status, getitem, records_with_status, status_of, len, mask.
  rewrite Hi. simpl. unfold series_eq. rewrite map_map.
  rewrite (select_map (fun r => match nth i r VNaN with
                                | VStr t => String.eqb t x
                                | _ => false
                                end)).
  do 3 f_equal. apply filter_ext. intros r. unfold status_among.
  destruct (nth i r VNaN); simpl; try reflexivity.
  now rewrite orb_false_r.
Qed.

Lemma series_sum_numeric (s : Series) :
  forallb numeric_cell s = true ->
  exists x, series_sum s = Ok x /\
            hundredths_of x = fold_right (fun v acc => cell_hundredths v + acc) 0 s.
Proof.
  induction s as [|v s IH]; simpl.
  - intros _. exists (Int 0). split; reflexivity.
  - intros [Hv Hs]%andb_prop. destruct (IH Hs) as (x & Hx & Hsum).
    destruct v as [t|y|t|]; simpl in Hv; try discriminate.
    + rewrite Hx. simpl. exists (add_number y x). split; [reflexivity|].
      rewrite <- Hsum. destruct y, x; simpl; lia.
    + exists x. split; [assumption|]. simpl. lia.
Qed.

Lemma column_sum_spec c df :
  has_column c df = true -> numeric_column c df = true ->
  exists x, column_sum df c = Ok x /\ hundredths_of x = column_total c df.
Proof.
  intros [i Hi]%has_column_index. unfold numeric_column, column_sum, getitem, column_total.
  rewrite Hi. intros Hnum. simpl.
  destruct (series_sum_numeric (map (fun r => nth i r VNaN) (rows df))) as (x & Hx & Hsum).
  - rewrite forallb_forall in *. intros v [r [<- Hr]]%in_map_iff. auto.
  - exists x. split; [assumption|]. rewrite Hsum.
    clear. induction (rows df) as [|r l IH]; simpl; [reflexivity|]. now rewrite IH.
Qed.

Lemma total_cell (fmt : number -> string) c df :
  numeric_column c df = true ->
  exists txt,
    (if has_column c df
     then x ← column_sum df c; mret (fmt x)
     else mret "N/A") = Ok txt /\ total_is fmt c df txt.
Proof.
  intros Hnum. unfold total_is. destruct (has_column c df) eqn:Hc.
  - destruct (column_sum_spec c df Hc Hnum) as (x & Hx & Hsum).
    exists (fmt x). rewrite Hx. split; [reflexivity|]. eauto.
  - exists "N/A". split; reflexivity.
Qed.

Lemma create_summary_rows p pr pk s :
  summarisable "amount" p = true ->
  summarisable "quantity" pr = true ->
  summarisable "quantity" pk = true ->
  summarisable "quantity" s = true ->
  exists tp tpr tpk ts,
    _create_summary p pr pk s =
      Ok [ summary_row "Purchase" p ["Approved"; "Delivered"] "Total Value" tp;
           summary_row "Production" pr ["Completed"] "Total Quantity" tpr;
           summary_row "Packing" pk ["Completed"] "Total Packed" tpk;
           summary_row "Shipment" s ["Delivered"] "Total Shipped" ts ] /\
    total_is (fun x => currency_prefix ++ format_comma_2f x) "amount" p tp /\
    total_is format_comma "quantity" pr tpr /\
    total_is format_comma "quantity" pk tpk /\
    total_is format_comma "quantity" s ts.
Proof.
  unfold summarisable.
  intros [Hp Np]%andb_prop [Hpr Npr]%andb_prop [Hpk Npk]%andb_prop [Hs Ns]%andb_prop.
  destruct (total_cell (fun x => currency_prefix ++ format_comma_2f x) _ _ Np)
    as (tp & Etp & Htp).
  destruct (total_cell format_comma _ _ Npr) as (tpr & Etpr & Htpr).
  destruct (total_cell format_comma _ _ Npk) as (tpk & Etpk & Htpk).
  destruct (total_cell format_comma _ _ Ns) as (ts & Ets & Hts).
  exists tp, tpr, tpk, ts. repeat split; try assumption.
  unfold _create_summary.
  rewrite !count_status_spec, !count_status_in_spec by assumption.
  cbn [mbind result_bind].
  rewrite Etp. cbn [mbind result_bind].
  rewrite Etpr. cbn [mbind result_bind].
  rewrite Etpk. cbn [mbind result_bind].
  rewrite Ets. reflexivity.
Qed.





Lemma empty_total (fmt : number -> string) c df txt :
  rows df = [] -> has_column c df = true ->
  total_is fmt c df txt -> txt = fmt (Int 0).
Proof.
  intros Hrows Hc. unfold total_is. rewrite Hc.
  intros (x & Hx & _ & ->). f_equal.
  unfold column_sum, getitem in Hx.
  destruct (index_of c (columns df)); [|discriminate].
  rewrite Hrows in Hx. simpl in Hx. congruence.
Qed.

Lemma empty_summary_row dept df completed key total :
  rows df = [] ->
  summary_row dept df completed key total =
  [ ("Department", VStr dept); ("Total Records", vint 0);
    ("Pending", vint 0); ("Completed", vint 0); (key, VStr total) ].
Proof.
  intros Hrows. unfold summary_row, len, records_with_status.
  rewrite Hrows. reflexivity.
Qed.

(** C9. For every dataset kind: when that kind's dataset carries its
    schema columns but no record, the summary is computed without failure
    and the kind's row reports Total Records, Pending and Completed as zero
    and a zero total. *)
Theorem empty_dataset_summary (k : Kind) (p pr pk s : DataFrame) :
  summarisable "amount" p = true ->
  summarisable "quantity" pr = true ->
  summarisable "quantity" pk = true ->
  summarisable "quantity" s = true ->
  rows (pick k p pr pk s) = [] ->
  has_column (aggregate_column k) (pick k p pr pk s) = true ->
  exists summary,
    _create_summary p pr pk s = Ok summary /\
    summary !! kind_index k = Some (zero_row k).
Proof.
  intros Hp Hpr Hpk Hs Hrows Hagg.
  destruct (create_summary_rows p pr pk s Hp Hpr Hpk Hs)
    as (tp & tpr & tpk & ts & Hsum & Htp & Htpr & Htpk & Hts).
  eexists. split; [exact Hsum|].
  destruct k; simpl in *; rewrite empty_summary_row by assumption;
    unfold zero_row; simpl; do 6 f_equal.
  - now rewrite (empty_total _ _ _ _ Hrows Hagg Htp).
  - now rewrite (empty_total _ _ _ _ Hrows Hagg Htpr).
  - now rewrite (empty_total _ _ _ _ Hrows Hagg Htpk).
  - now rewrite (empty_total _ _ _ _ Hrows Hagg Hts).
Qed.

Lemma empty_dataset_summary_witness :
  (summarisable "amount" ten_purchases = true /\
   summarisable "quantity" two_runs = true /\
   summarisable "quantity" no_shipments = true /\
   rows no_shipments = [] /\
   has_column "quantity" no_shipments = true) /\
  exists summary,
    _create_summary ten_purchases two_runs two_runs no_shipments = Ok summary /\
    summary !! 3%nat = Some (zero_row KShipment).
Proof.
  split; [repeat split; reflexivity|].
  apply (empty_dataset_summary KShipment ten_purchases two_runs two_runs
                               no_shipments); reflexivity.
Defined.

(** ** Live summary against the summary sheet *)


Ltac bind_inv H :=
  repeat match type of H with
  | context [mbind _ ?m] =>
      let E := fresh "E" in
      destruct m eqn:E; cbn [mbind result_bind] in H; [|discriminate H]
  | context [result_bind _ _ _ ?m] =>
      let E := fresh "E" in
      destruct m eqn:E; cbn [mbind result_bind] in H; [|discriminate H]
  end.




(** ** Retention sweep *)

(** C2, evaluated on the code. With a 30 day policy and reports that are
    forty days old, the sweep removes the stamped files and, with them,
    the latest workbook and the latest purchase export: the patterns
    [*_*.xlsx] and [*_*.csv] also match the latest names. *)
Theorem cleanup_deletes_old_latest :
  is_Some (fs (world_with old_reports ∅) !! latest_workbook) /\
  is_Some (fs (world_with old_reports ∅) !! latest_csv "purchase_data") /\
  fnmatch "daily_report.xlsx" "*_*.xlsx" = true /\
  fnmatch "purchase_data.csv" "*_*.csv" = true /\
  snd (cleanup_old_reports 30 (world_with old_reports ∅)) = Ok tt /\
  fs (fst (cleanup_old_reports 30 (world_with old_reports ∅)))
    !! latest_workbook = None /\
  fs (fst (cleanup_old_reports 30 (world_with old_reports ∅)))
    !! latest_csv "purchase_data" = None.
Proof.
  repeat split; try (vm_compute; reflexivity); vm_compute; eauto.
Qed.

Ltac run_M :=
  cbv beta iota zeta delta
    [try_except logger_info logger_error modify now gets raise lift
     shutil_copy write_file stat unlink for_each
     mbind M_bind mret M_ret result_bind result_ret];
  cbn [latest_data running fs denied clock erp log add_log set_fs
       set_latest_data fst snd].

Ltac step_io :=
  match goal with
  | |- context [decide (?p ∈ denied ?w)] => destruct (decide (p ∈ denied w))
  end; run_M; rewrite ?lookup_insert_eq; run_M.

Ltac lookup_through :=
  repeat first
    [ rewrite lookup_insert_eq
    | rewrite lookup_insert_ne by (let H := fresh in intros H; discriminate H) ].

(** ** Report writer *)





(** The report calls change neither the snapshot dictionary nor the
    scheduler flag. *)
Lemma excel_keeps_store (p pr pk s : DataFrame) (w : World) :
  latest_data (fst (generate_excel_reports p pr pk s w)) = latest_data w /\
  running (fst (generate_excel_reports p pr pk s w)) = running w.
Proof.
  unfold generate_excel_reports, with_ExcelWriter.
  destruct (_create_summary p pr pk s) as [summary|e]; run_M;
    repeat step_io; split; reflexivity.
Qed.

Lemma csv_keeps_store (p pr pk s : DataFrame) (w : World) :
  latest_data (fst (generate_csv_exports p pr pk s w)) = latest_data w /\
  running (fst (generate_csv_exports p pr pk s w)) = running w.
Proof.
  unfold generate_csv_exports. run_M. repeat step_io; split; reflexivity.
Qed.

(** ** One refresh cycle on its own *)

Ltac run_fetch :=
  cbv beta iota zeta delta
    [fetch_and_process_data get_purchase_data get_production_data
     get_packing_data get_shipment_data fetch update_global_state
     published generate_reports answers];
  repeat progress
    (run_M; cbn [purchase_orders production_runs packing_jobs shipments]).

(** C4. When one of the four fetches raises, the cycle leaves the snapshot
    dictionary and the files exactly as they were, logs the error and
    returns normally (the exception does not leave
    [fetch_and_process_data]); the scheduler flag is untouched. *)
Theorem fetch_failure_isolation (w : World) :
  some_fetch_fails (erp w) = true ->
  exists (w' : World) (e : exn),
    fetch_and_process_data w = (w', Ok tt) /\
    latest_data w' = latest_data w /\
    fs w' = fs w /\
    running w' = running w /\
    last (log w') = Some (ERROR ("Error in data processing: " ++ exn_str e)).
Proof.
  destruct w as [d r f dn c [[p|e1] [pr|e2] [pk|e3] [s|e4]] l];
    cbn [erp some_fetch_fails is_raise orb purchase_orders production_runs
         packing_jobs shipments];
    intros Hfail; try discriminate Hfail; clear Hfail;
    run_fetch; eexists _, _; (split; [reflexivity|]);
    cbn [latest_data running fs denied clock erp log add_log set_fs
         set_latest_data];
    rewrite last_snoc; repeat split; reflexivity.
Qed.

Lemma fetch_failure_isolation_witness :
  some_fetch_fails (erp (world_of packing_down old_reports ∅
                                  initial_latest_data)) = true /\
  exists (w' : World) (e : exn),
    fetch_and_process_data
      (world_of packing_down old_reports ∅ initial_latest_data) = (w', Ok tt) /\
    latest_data w' = initial_latest_data /\
    fs w' = old_reports /\
    running w' = true /\
    last (log w') = Some (ERROR ("Error in data processing: " ++ exn_str e)).
Proof.
  split; [reflexivity|].
  apply (fetch_failure_isolation
           (world_of packing_down old_reports ∅ initial_latest_data)).
  reflexivity.
Defined.

Lemma published_store (p pr pk s : DataFrame) (w : World) :
  erp w = answers p pr pk s ->
  latest_data (published p pr pk s w) = snapshot p pr pk s (clock w) /\
  running (published p pr pk s w) = running w.
Proof.
  destruct w as [d r f dn c b l]. cbn [erp]. intros ->.
  run_fetch. split; reflexivity.
Qed.

(** C6. When the four fetches succeed and a report call then raises, the
    snapshot published by the cycle is what the dictionary holds after the
    cycle, the error is logged, and [fetch_and_process_data] returns
    normally, the scheduler flag untouched. *)
Theorem report_failure_keeps_publish
    (p pr pk s : DataFrame) (w : World) (e : exn) :
  erp w = answers p pr pk s ->
  snd (generate_reports p pr pk s (published p pr pk s w)) = Raise e ->
  exists w' : World,
    fetch_and_process_data w = (w', Ok tt) /\
    latest_data w' = snapshot p pr pk s (clock w) /\
    running w' = running w /\
    last (log w') = Some (ERROR ("Error in data processing: " ++ exn_str e)).
Proof.
  intros Herp Hfail.
  destruct (published_store p pr pk s w Herp) as [Hstore Hrun].
  revert Hfail Hstore Hrun.
  destruct w as [d r f dn c b l]. cbn [erp] in Herp. subst b.
  run_fetch.
  match goal with
  | |- context [generate_excel_reports p pr pk s ?w1] =>
      generalize (excel_keeps_store p pr pk s w1);
      destruct (generate_excel_reports p pr pk s w1) as [w2 [[]|e2]]
  end; cbn [fst snd].
  - generalize (csv_keeps_store p pr pk s w2).
    destruct (generate_csv_exports p pr pk s w2) as [w3 [[]|e3]]; cbn [fst snd];
      intros [Hs3 Hr3] [Hs2 Hr2] Hfail Hstore Hrun; [discriminate Hfail|].
    injection Hfail as ->.
    eexists. split; [reflexivity|].
    cbn [latest_data running fs denied clock erp log add_log set_fs
         set_latest_data] in *.
    rewrite last_snoc. repeat split; congruence.
  - intros [Hs2 Hr2] Hfail Hstore Hrun. injection Hfail as ->.
    eexists. split; [reflexivity|].
    cbn [latest_data running fs denied clock erp log add_log set_fs
         set_latest_data] in *.
    rewrite last_snoc. repeat split; congruence.
Qed.

Lemma report_failure_keeps_publish_witness :
  erp (world_of demo_backend old_reports {[ latest_workbook ]}
                initial_latest_data) =
    answers ten_purchases two_runs two_runs no_shipments /\
  snd (generate_reports ten_purchases two_runs two_runs no_shipments
         (published ten_purchases two_runs two_runs no_shipments
            (world_of demo_backend old_reports {[ latest_workbook ]}
                      initial_latest_data))) =
    Raise (OSError latest_workbook) /\
  exists w' : World,
    fetch_and_process_data
      (world_of demo_backend old_reports {[ latest_workbook ]}
                initial_latest_data) = (w', Ok tt) /\
    latest_data w' =
      snapshot ten_purchases two_runs two_runs no_shipments eight_o_clock /\
    running w' = true /\
    last (log w') =
      Some (ERROR ("Error in data processing: " ++
                   exn_str (OSError latest_workbook))).
Proof.
  split; [reflexivity|]. split; [vm_compute; reflexivity|].
  apply (report_failure_keeps_publish ten_purchases two_runs two_runs
           no_shipments
           (world_of demo_backend old_reports {[ latest_workbook ]}
                     initial_latest_data)).
  - reflexivity.
  - vm_compute; reflexivity.
Defined.

(** ** Threads *)

(** The thread model run on one cycle alone gives what
    [fetch_and_process_data] gives, when every report is written, when a
    fetch fails and when a report cannot be written. *)
Example solo_cycle_agrees :
  Forall (fun w =>
    let c := run (Trigger :: repeat (Run 0) 15) (boot w) in
    outcome (world c) = outcome (fst (fetch_and_process_data w)) /\
    threads c = [Refresh Returned] /\ data_lock c = None)
    [ world_with old_reports ∅;
      world_of packing_down old_reports ∅ initial_latest_data;
      world_of demo_backend old_reports {[ latest_workbook ]}
               initial_latest_data;
      world_with old_reports
        {[ stamped_csv "production_data" "20240305_080000" ]} ].
Proof.
  repeat apply List.Forall_cons; try apply List.Forall_nil;
    vm_compute; repeat split; reflexivity.
Qed.

Lemma run_cons (e : Event) (evs : list Event) (c : Config) :
  run (e :: evs) c = run evs (apply_event e c).
Proof. reflexivity. Qed.

Lemma fetch_calls_add_log k r w :
  fetch_calls k (add_log r w) =
  (fetch_calls k w + Nat.b2n (is_fetch_record k r))%nat.
Proof.
  unfold fetch_calls, add_log. cbn [log].
  rewrite List.filter_app, length_app. cbn [List.filter].
  destruct (is_fetch_record k r); reflexivity.
Qed.

Lemma fetch_calls_set_fs k g w : fetch_calls k (set_fs g w) = fetch_calls k w.
Proof. reflexivity. Qed.

Lemma fetch_calls_set_latest k g w :
  fetch_calls k (set_latest_data g w) = fetch_calls k w.
Proof. reflexivity. Qed.

Ltac count_calls :=
  repeat first
    [ rewrite fetch_calls_set_fs
    | rewrite fetch_calls_set_latest
    | rewrite fetch_calls_add_log ];
  repeat match goal with
  | |- context [is_fetch_record ?k ?r] =>
      replace (is_fetch_record k r) with false by (destruct k; reflexivity)
  end;
  cbn [Nat.b2n].

Lemma excel_keeps_calls k (p pr pk s : DataFrame) (w : World) :
  fetch_calls k (fst (generate_excel_reports p pr pk s w)) = fetch_calls k w.
Proof.
  unfold generate_excel_reports, with_ExcelWriter.
  destruct (_create_summary p pr pk s) as [summary|e]; run_M;
    repeat step_io; count_calls; lia.
Qed.

Lemma csv_keeps_calls k (p pr pk s : DataFrame) (w : World) :
  fetch_calls k (fst (generate_csv_exports p pr pk s w)) = fetch_calls k w.
Proof.
  unfold generate_csv_exports. run_M.
  repeat step_io; count_calls; lia.
Qed.

Lemma fetch_keeps_calls k (x : Kind) (answer : Backend -> result DataFrame)
    (w : World) :
  fetch_calls k (fst (fetch (kind_name x) answer w)) =
  (fetch_calls k w + Nat.b2n (Nat.eqb (kind_index k) (kind_index x)))%nat.
Proof.
  unfold fetch. run_M. destruct (answer (erp w)) as [df|e]; cbn [fst];
    rewrite !fetch_calls_add_log;
    try (replace (is_fetch_record k (INFO ("Retrieved " ++ _))) with false
           by (destruct k; reflexivity));
    destruct k, x;
    repeat match goal with
    | |- context [is_fetch_record ?a ?b] =>
        let v := eval vm_compute in (is_fetch_record a b) in
        change (is_fetch_record a b) with v
    end; cbn; lia.
Qed.

Lemma filter_insert_count {A : Type} (f : A -> bool) (l : list A) (i : nat)
    (x y : A) :
  l !! i = Some x ->
  (length (List.filter f (<[i := y]> l)) + Nat.b2n (f x) =
   length (List.filter f l) + Nat.b2n (f y))%nat.
Proof.
  revert i. induction l as [|a l IH]; intros [|i] Hi; try discriminate.
  - injection Hi as ->. simpl. destruct (f x), (f y); simpl; lia.
  - simpl in Hi. specialize (IH i Hi). simpl. destruct (f a); simpl; lia.
Qed.

Lemma filter_snoc_count {A : Type} (f : A -> bool) (l : list A) (x : A) :
  length (List.filter f (l ++ [x])) =
  (length (List.filter f l) + Nat.b2n (f x))%nat.
Proof.
  rewrite List.filter_app, length_app. cbn. destruct (f x); reflexivity.
Qed.

(** What one statement of a cycle does to the fetch counts. *)
Lemma refresh_step_calls k i pc c pc' c' :
  refresh_step i pc c = Some (pc', c') ->
  threads c' = threads c /\
  (fetch_calls k (world c') + Nat.b2n (reached k (Refresh pc)) <=
   fetch_calls k (world c) + Nat.b2n (reached k (Refresh pc')))%nat /\
  (fetch_calls KPurchase (world c') + Nat.b2n (reached KPurchase (Refresh pc)) =
   fetch_calls KPurchase (world c) +
   Nat.b2n (reached KPurchase (Refresh pc')))%nat.
Proof.
  destruct pc; cbn [refresh_step]; unfold do_op, assign, acquire, release;
    try discriminate;
    try match goal with
    | |- context [?m (world c)] =>
        lazymatch m with
        | logger_info ?msg =>
            pose proof (fetch_calls_add_log k (INFO msg) (world c)) as Hk;
            pose proof (fetch_calls_add_log KPurchase (INFO msg) (world c)) as Hp;
            unfold logger_info, modify
        | logger_error ?msg =>
            pose proof (fetch_calls_add_log k (ERROR msg) (world c)) as Hk;
            pose proof (fetch_calls_add_log KPurchase (ERROR msg) (world c)) as Hp;
            unfold logger_error, modify
        | get_purchase_data =>
            pose proof (fetch_keeps_calls k KPurchase purchase_orders (world c)) as Hk;
            pose proof (fetch_keeps_calls KPurchase KPurchase purchase_orders (world c)) as Hp;
            change (fetch (kind_name KPurchase) purchase_orders) with get_purchase_data in Hk, Hp
        | get_production_data =>
            pose proof (fetch_keeps_calls k KProduction production_runs (world c)) as Hk;
            pose proof (fetch_keeps_calls KPurchase KProduction production_runs (world c)) as Hp;
            change (fetch (kind_name KProduction) production_runs) with get_production_data in Hk, Hp
        | get_packing_data =>
            pose proof (fetch_keeps_calls k KPacking packing_jobs (world c)) as Hk;
            pose proof (fetch_keeps_calls KPurchase KPacking packing_jobs (world c)) as Hp;
            change (fetch (kind_name KPacking) packing_jobs) with get_packing_data in Hk, Hp
        | get_shipment_data =>
            pose proof (fetch_keeps_calls k KShipment shipments (world c)) as Hk;
            pose proof (fetch_keeps_calls KPurchase KShipment shipments (world c)) as Hp;
            change (fetch (kind_name KShipment) shipments) with get_shipment_data in Hk, Hp
        | generate_excel_reports ?p ?pr ?pk ?s =>
            pose proof (excel_keeps_calls k p pr pk s (world c)) as Hk;
            pose proof (excel_keeps_calls KPurchase p pr pk s (world c)) as Hp
        | generate_csv_exports ?p ?pr ?pk ?s =>
            pose proof (csv_keeps_calls k p pr pk s (world c)) as Hk;
            pose proof (csv_keeps_calls KPurchase p pr pk s (world c)) as Hp
        end
    end.
  all: try match goal with
       | |- context [match ?m (world ?c0) with _ => _ end] =>
           destruct (m (world c0)) as [w' [a|e]]; cbn [fst] in *
       end.
  all: try match goal with
       | |- context [data_lock ?c0] => destruct (data_lock c0)
       end.
  all: intros H; try discriminate H; injection H as <- <-.
  all: cbn [threads world with_world with_lock record_publish].
  all: rewrite ?fetch_calls_set_latest.
  all: split; [reflexivity|].
  all: try (replace (is_fetch_record k _) with false in Hk
              by (destruct k; reflexivity)).
  all: try (replace (is_fetch_record KPurchase _) with false in Hp
              by reflexivity).
  all: destruct k; cbn in *; lia.
Qed.

Lemma handler_step_world i q pc c pc' c' :
  handler_step i q pc c = Some (pc', c') ->
  threads c' = threads c /\ world c' = world c /\
  publishes c' = publishes c.
Proof.
  destruct pc; cbn [handler_step]; unfold acquire, release;
    try destruct (data_lock c); intros H; try discriminate H;
    injection H as <- <-; repeat split; reflexivity.
Qed.

(** What one event does to the counts: a trigger adds a cycle, and the
    fetch count of a kind grows only as cycles go past that fetch. *)
Lemma apply_event_counts k e c :
  cycles (apply_event e c) = (cycles c + Nat.b2n (is_trigger e))%nat /\
  (fetch_calls k (world (apply_event e c)) + cycles_past k c <=
   fetch_calls k (world c) + cycles_past k (apply_event e c))%nat /\
  (fetch_calls KPurchase (world (apply_event e c)) + cycles_past KPurchase c =
   fetch_calls KPurchase (world c) +
   cycles_past KPurchase (apply_event e c))%nat.
Proof.
  unfold cycles, cycles_past. destruct e as [|q|i|t b nw];
    cbn [apply_event is_trigger Nat.b2n].
  - unfold spawn. cbn [threads world with_threads].
    rewrite !filter_snoc_count. cbn. repeat split; destruct k; cbn; lia.
  - unfold spawn. cbn [threads world with_threads].
    rewrite !filter_snoc_count. cbn. repeat split; lia.
  - destruct (threads c !! i) as [t|] eqn:Hi; [|repeat split; lia].
    destruct t as [pc|q pc]; cbn [thread_step].
    + destruct (refresh_step i pc c) as [[pc' c']|] eqn:Hstep;
        [|repeat split; lia].
      destruct (refresh_step_calls k i pc c pc' c' Hstep) as (Hts & Hle & Heq).
      cbn [threads world with_threads]. rewrite Hts.
      pose proof (filter_insert_count is_refresh (threads c) i
                    (Refresh pc) (Refresh pc') Hi) as Hc.
      pose proof (filter_insert_count (reached k) (threads c) i
                    (Refresh pc) (Refresh pc') Hi) as Hk.
      pose proof (filter_insert_count (reached KPurchase) (threads c) i
                    (Refresh pc) (Refresh pc') Hi) as Hp.
      cbn [is_refresh Nat.b2n] in Hc. repeat split; lia.
    + destruct (handler_step i q pc c) as [[pc' c']|] eqn:Hstep;
        [|repeat split; lia].
      destruct (handler_step_world i q pc c pc' c' Hstep) as (Hts & Hw & _).
      cbn [threads world with_threads]. rewrite Hts, Hw.
      pose proof (filter_insert_count is_refresh (threads c) i
                    (Handler q pc) (Handler q pc') Hi) as Hc.
      pose proof (filter_insert_count (reached k) (threads c) i
                    (Handler q pc) (Handler q pc') Hi) as Hk.
      pose proof (filter_insert_count (reached KPurchase) (threads c) i
                    (Handler q pc) (Handler q pc') Hi) as Hp.
      cbn [is_refresh reached Nat.b2n] in Hc, Hk, Hp. repeat split; lia.
  - cbn [threads world with_world]. unfold fetch_calls, set_outside.
    cbn [log]. repeat split; lia.
Qed.

Lemma run_counts k evs c :
  cycles (run evs c) = (cycles c + triggers evs)%nat /\
  (fetch_calls k (world (run evs c)) + cycles_past k c <=
   fetch_calls k (world c) + cycles_past k (run evs c))%nat /\
  (fetch_calls KPurchase (world (run evs c)) + cycles_past KPurchase c =
   fetch_calls KPurchase (world c) + cycles_past KPurchase (run evs c))%nat.
Proof.
  revert c. induction evs as [|e evs IH]; intros c.
  - cbn. repeat split; lia.
  - rewrite run_cons.
    destruct (IH (apply_event e c)) as (Hc & Hle & Heq).
    destruct (apply_event_counts k e c) as (Hc1 & Hle1 & Heq1).
    unfold triggers in *. cbn [List.filter].
    destruct (is_trigger e); cbn [length Nat.b2n] in *; repeat split; lia.
Qed.

Lemma cycles_past_le k c : (cycles_past k c <= cycles c)%nat.
Proof.
  unfold cycles_past, cycles.
  induction (threads c) as [|t l IH]; [cbn; lia|].
  destruct t as [pc|q pc]; cbn [List.filter reached is_refresh];
    [|exact IH].
  destruct (kind_index k <? fetches_passed pc)%nat; cbn [length]; lia.
Qed.

(** With one cycle in progress (it has fetched the purchase data), two
    more triggers arrive.  Neither is dropped: each runs as a cycle of its
    own next to the first, and each calls the purchase query again. *)
Lemma triggers_during_cycle_fetch_again :
  threads (run [Trigger; Run 0; Run 0] (boot (world_with old_reports ∅))) =
    [Refresh (AtFetchProduction ten_purchases)] /\
  fetch_calls KPurchase
    (world (run [Trigger; Run 0; Run 0] (boot (world_with old_reports ∅)))) =
    1%nat /\
  threads (run [Trigger; Trigger; Run 1; Run 1; Run 2; Run 2]
            (run [Trigger; Run 0; Run 0] (boot (world_with old_reports ∅)))) =
    [Refresh (AtFetchProduction ten_purchases);
     Refresh (AtFetchProduction ten_purchases);
     Refresh (AtFetchProduction ten_purchases)] /\
  fetch_calls KPurchase
    (world (run [Trigger; Trigger; Run 1; Run 1; Run 2; Run 2]
             (run [Trigger; Run 0; Run 0]
                  (boot (world_with old_reports ∅))))) = 3%nat.
Proof.
  repeat split; vm_compute; reflexivity.
Qed.

(** C1 (amended). The refresh entry point has no guard: every trigger
    starts a cycle of its own, also while another cycle is running.  Each
    cycle calls each fetch at most once, so the calls of a fetch never
    outnumber the triggers, and the purchase fetch has been called once
    for every cycle that has gone past it. *)
Theorem every_trigger_runs_a_cycle (w : World) (evs : list Event) :
  cycles (run evs (boot w)) = triggers evs /\
  fetch_calls KPurchase (world (run evs (boot w))) =
    (fetch_calls KPurchase w + cycles_past KPurchase (run evs (boot w)))%nat /\
  Forall (fun k =>
            (fetch_calls k (world (run evs (boot w))) <=
             fetch_calls k w + triggers evs)%nat)
         [KPurchase; KProduction; KPacking; KShipment].
Proof.
  split; [|split].
  - destruct (run_counts KPurchase evs (boot w)) as (Hc & _). exact Hc.
  - destruct (run_counts KPurchase evs (boot w)) as (_ & _ & Heq).
    cbn in Heq. cbn. lia.
  - repeat apply List.Forall_cons; try apply List.Forall_nil;
      match goal with
      | |- (fetch_calls ?k _ <= _)%nat =>
          destruct (run_counts k evs (boot w)) as (Hc & Hle & _);
          pose proof (cycles_past_le k (run evs (boot w)));
          cbn in Hc, Hle; cbn; lia
      end.
Qed.

(** ** Publish and read under the lock *)

Lemma fetch_keeps_store (what : string) (answer : Backend -> result DataFrame)
    (w : World) :
  latest_data (fst (fetch what answer w)) = latest_data w.
Proof.
  unfold fetch. run_M. destruct (answer (erp w)); reflexivity.
Qed.

Lemma current_in (c : Config) :
  current c ∈ initial_latest_data :: publishes c.
Proof.
  unfold current. destruct (last (publishes c)) as [d|] eqn:Hlast; cbn.
  - right. eapply last_Some_elem_of. exact Hlast.
  - left.
Qed.

Lemma answered_from_mono ds ds' t :
  (forall d, d ∈ ds -> d ∈ ds') -> answered_from ds t -> answered_from ds' t.
Proof.
  intros Hsub. destruct t as [pc|q [| |r|r]]; cbn; try tauto;
    intros (d & Hd & ->); eauto.
Qed.

(** What one statement of a thread does to the lock, the dictionary and
    the publish history. *)
Lemma thread_step_cases i t c t' c' :
  thread_step i t c = Some (t', c') ->
  threads c' = threads c /\
  match classify t with
  | Quiet =>
      holds_lock t = false /\ holds_lock t' = false /\
      data_lock c' = data_lock c /\ publishes c' = publishes c /\
      latest_data (world c') = latest_data (world c) /\
      (forall ds, answered_from ds t')
  | Acquire =>
      holds_lock t = false /\ holds_lock t' = true /\
      data_lock c = None /\ data_lock c' = Some i /\
      publishes c' = publishes c /\
      latest_data (world c') = latest_data (world c) /\
      (forall cur, expected_store t' cur = cur) /\
      (forall ds, answered_from ds t')
  | Locked =>
      holds_lock t = true /\ holds_lock t' = true /\
      data_lock c' = data_lock c /\
      (exists more, publishes c' = (publishes c ++ more)%list /\
                    Forall complete more) /\
      (latest_data (world c) = expected_store t (current c) ->
       latest_data (world c') = expected_store t' (current c') /\
       answered_from (initial_latest_data :: publishes c') t')
  | Release =>
      holds_lock t = true /\ holds_lock t' = false /\
      data_lock c' = None /\ publishes c' = publishes c /\
      latest_data (world c') = latest_data (world c) /\
      (forall cur, expected_store t cur = cur) /\
      (forall ds, answered_from ds t -> answered_from ds t')
  end.
Proof.
  destruct t as [pc|q pc]; destruct pc;
    cbn [thread_step refresh_step handler_step classify];
    unfold do_op, assign, acquire, release; try discriminate.
  all: try match goal with
       | |- context [match ?m (world ?c0) with _ => _ end] =>
           let Hs := fresh "Hs" in
           first
             [ pose proof (fetch_keeps_store "purchase" purchase_orders
                             (world c0)) as Hs;
               progress change (fetch "purchase" purchase_orders)
                 with get_purchase_data in Hs;
               lazymatch m with get_purchase_data => idtac end
             | pose proof (fetch_keeps_store "production" production_runs
                             (world c0)) as Hs;
               progress change (fetch "production" production_runs)
                 with get_production_data in Hs;
               lazymatch m with get_production_data => idtac end
             | pose proof (fetch_keeps_store "packing" packing_jobs
                             (world c0)) as Hs;
               progress change (fetch "packing" packing_jobs)
                 with get_packing_data in Hs;
               lazymatch m with get_packing_data => idtac end
             | pose proof (fetch_keeps_store "shipment" shipments
                             (world c0)) as Hs;
               progress change (fetch "shipment" shipments)
                 with get_shipment_data in Hs;
               lazymatch m with get_shipment_data => idtac end
             | lazymatch m with
               | generate_excel_reports ?p ?pr ?pk ?s =>
                   pose proof (proj1 (excel_keeps_store p pr pk s (world c0)))
                     as Hs
               | generate_csv_exports ?p ?pr ?pk ?s =>
                   pose proof (proj1 (csv_keeps_store p pr pk s (world c0)))
                     as Hs
               | logger_info ?msg =>
                   assert (latest_data (fst (logger_info msg (world c0))) =
                           latest_data (world c0)) as Hs by reflexivity
               | logger_error ?msg =>
                   assert (latest_data (fst (logger_error msg (world c0))) =
                           latest_data (world c0)) as Hs by reflexivity
               end ];
           destruct (m (world c0)) as [w' [a|e]]; cbn [fst] in Hs
       end.
  all: try match goal with
       | |- context [match data_lock ?c0 with _ => _ end] =>
           destruct (data_lock c0) eqn:Hlock
       end.
  all: intros H; try discriminate H; injection H as <- <-.
  all: unfold current.
  all: cbn [threads world data_lock publishes with_world with_lock
            record_publish holds_lock in_publish in_read orb
            expected_store answered_from latest_data set_latest_data].
  all: split; [reflexivity|].
  all: repeat match goal with |- _ /\ _ => split end.
  all: try reflexivity; try assumption; try tauto.
  all: try (exists []; split; [now rewrite app_nil_r|constructor]).
  all: try (intros ->; reflexivity).
  all: try (intros; tauto).
  all: try (intros ->; split; [reflexivity|exact I]).
  - eexists [_]. split; [reflexivity|]. repeat constructor.
    do 5 eexists. reflexivity.
  - intros ->. rewrite last_snoc. split; [reflexivity|exact I].
  - intros Hst. split; [exact Hst|].
    exists (current c). split; [apply current_in|]. unfold current.
    now rewrite Hst.
Qed.

Lemma lock_inv_boot (w : World) :
  latest_data w = initial_latest_data -> lock_inv (boot w).
Proof.
  intros Hw. unfold lock_inv, boot, current. cbn.
  repeat split; try constructor; try assumption.
  intros i t Hi. rewrite lookup_nil in Hi. discriminate.
Qed.

Lemma lock_inv_spawn (t0 : Thread) (c : Config) :
  holds_lock t0 = false -> (forall ds, answered_from ds t0) ->
  lock_inv c -> lock_inv (spawn t0 c).
Proof.
  intros Hfree Hans (H1 & H2 & H3 & H4).
  unfold lock_inv, spawn, current.
  cbn [threads world data_lock publishes with_threads].
  split; [|split; [|split]].
  - intros j t [[_ Hj]|[_ <-]]%lookup_snoc_Some Hh; [eauto|congruence].
  - destruct (data_lock c) as [n|]; [|exact H2].
    destruct H2 as (t & Hn & Hh & Hst). exists t. split; [|auto].
    rewrite lookup_app_l; [exact Hn|]. eapply lookup_lt_Some; exact Hn.
  - apply Forall_app. split; [exact H3|]. repeat constructor. apply Hans.
  - exact H4.
Qed.

Lemma lock_inv_run (i : nat) (c : Config) :
  lock_inv c -> lock_inv (apply_event (Run i) c).
Proof.
  intros Hinv. pose proof Hinv as (H1 & H2 & H3 & H4). cbn [apply_event].
  destruct (threads c !! i) as [t|] eqn:Hi; [|exact Hinv].
  destruct (thread_step i t c) as [[t' c']|] eqn:Hstep; [|exact Hinv].
  destruct (thread_step_cases _ _ _ _ _ Hstep) as [Hts Hcase].
  pose proof (lookup_lt_Some _ _ _ Hi) as Hlen.
  unfold lock_inv, current in *.
  cbn [threads world data_lock publishes with_threads].
  rewrite Hts.
  assert (Hlook : forall j t0,
            <[i:=t']> (threads c) !! j = Some t0 ->
            (j = i /\ t0 = t') \/ (j <> i /\ threads c !! j = Some t0)).
  { intros j t0. destruct (decide (i = j)) as [<-|Hne].
    - rewrite list_lookup_insert_eq by exact Hlen. intros [= <-]. now left.
    - rewrite list_lookup_insert_ne by exact Hne. right. split; auto. }
  pose proof (Forall_lookup_1 _ _ _ _ H3 Hi) as Hans_t.
  destruct (classify t).
  - destruct Hcase as (Ht & Ht' & Hl & Hp & Hs & Ha).
    rewrite Hl, Hp, Hs. split; [|split; [|split]].
    + intros j t0 [[-> ->]|[Hne Hj]]%Hlook Hh; [congruence|eauto].
    + destruct (data_lock c) as [n|]; [|exact H2].
      destruct H2 as (t0 & Hn & Hh & Hst). exists t0. split; [|auto].
      rewrite list_lookup_insert_ne; [exact Hn|]. intros <-. congruence.
    + apply Forall_insert; [exact H3|apply Ha].
    + exact H4.
  - destruct Hcase as (Ht & Ht' & Hl & Hl' & Hp & Hs & He & Ha).
    rewrite Hl', Hp, Hs. rewrite Hl in H2.
    split; [|split; [|split]].
    + intros j t0 [[-> ->]|[Hne Hj]]%Hlook Hh; [reflexivity|].
      specialize (H1 j t0 Hj Hh). congruence.
    + exists t'. split; [apply list_lookup_insert_eq; exact Hlen|].
      split; [exact Ht'|]. rewrite He. exact H2.
    + apply Forall_insert; [exact H3|apply Ha].
    + exact H4.
  - destruct Hcase as (Ht & Ht' & Hl & (more & Hp & Hmore) & Hst).
    pose proof (H1 i t Hi Ht) as Hlock. rewrite Hlock in H2.
    destruct H2 as (t0 & Hn & _ & Hstore).
    assert (t0 = t) as -> by congruence.
    destruct (Hst Hstore) as [Hstore' Hans]. rewrite Hl, Hlock.
    split; [|split; [|split]].
    + intros j t0 [[-> ->]|[Hne Hj]]%Hlook Hh; [reflexivity|].
      specialize (H1 j t0 Hj Hh). congruence.
    + exists t'. split; [apply list_lookup_insert_eq; exact Hlen|].
      split; [exact Ht'|exact Hstore'].
    + apply Forall_insert; [|exact Hans].
      eapply Forall_impl; [exact H3|]. intros t1.
      apply answered_from_mono. rewrite Hp. intros d.
      rewrite !elem_of_cons, elem_of_app. tauto.
    + rewrite Hp. apply Forall_app. split; assumption.
  - destruct Hcase as (Ht & Ht' & Hl' & Hp & Hs & He & Ha).
    pose proof (H1 i t Hi Ht) as Hlock. rewrite Hlock in H2.
    destruct H2 as (t0 & Hn & _ & Hstore).
    assert (t0 = t) as -> by congruence.
    rewrite Hl', Hp, Hs.
    split; [|split; [|split]].
    + intros j t0 [[-> ->]|[Hne Hj]]%Hlook Hh; [congruence|].
      specialize (H1 j t0 Hj Hh). congruence.
    + rewrite Hstore. apply He.
    + apply Forall_insert; [exact H3|]. apply Ha. exact Hans_t.
    + exact H4.
Qed.

Lemma lock_inv_event (e : Event) (c : Config) :
  lock_inv c -> lock_inv (apply_event e c).
Proof.
  destruct e as [|q|i|t b nw].
  - apply lock_inv_spawn; [reflexivity|intros ds; exact I].
  - apply lock_inv_spawn; [reflexivity|intros ds; exact I].
  - apply lock_inv_run.
  - intros Hinv. exact Hinv.
Qed.

Lemma lock_inv_run_all (evs : list Event) (c : Config) :
  lock_inv c -> lock_inv (run evs c).
Proof.
  revert c. induction evs as [|e evs IH]; intros c Hinv; [exact Hinv|].
  rewrite run_cons. apply IH, lock_inv_event, Hinv.
Qed.

Lemma existsb_false_lookup {A : Type} (f : A -> bool) (l : list A) i x :
  existsb f l = false -> l !! i = Some x -> f x = false.
Proof.
  intros Hall Hi. destruct (f x) eqn:Hx; [|reflexivity].
  assert (existsb f l = true) as Hex; [|congruence].
  apply existsb_exists. exists x. split; [|exact Hx].
  apply list_elem_of_In. eapply list_elem_of_lookup_2. exact Hi.
Qed.

(** C5. Whatever the interleaving of refresh cycles and queries: every
    publish stores all four datasets and the timestamp; unless a cycle is
    in the middle of its assignments (it then holds the lock), the
    dictionary is either the initial one or exactly what one publish
    stored; and every response a query has computed is the route's answer
    on the initial dictionary or on what one publish stored, never on a
    mix. *)
Theorem snapshot_all_or_none (w : World) (evs : list Event) :
  latest_data w = initial_latest_data ->
  Forall complete (publishes (run evs (boot w))) /\
  (existsb in_publish (threads (run evs (boot w))) = true \/
   latest_data (world (run evs (boot w))) = initial_latest_data \/
   (complete (latest_data (world (run evs (boot w)))) /\
    latest_data (world (run evs (boot w))) ∈ publishes (run evs (boot w)))) /\
  Forall (answered_from
            (initial_latest_data :: publishes (run evs (boot w))))
         (threads (run evs (boot w))).
Proof.
  intros Hw.
  destruct (lock_inv_run_all evs (boot w) (lock_inv_boot w Hw))
    as (H1 & H2 & H3 & H4).
  set (c := run evs (boot w)) in *.
  split; [exact H4|]. split; [|exact H3].
  destruct (existsb in_publish (threads c)) eqn:Hpub; [now left|right].
  assert (latest_data (world c) = current c) as Hcur.
  { destruct (data_lock c) as [i|]; [|exact H2].
    destruct H2 as (t & Hi & Hh & Hst). rewrite Hst.
    pose proof (existsb_false_lookup _ _ _ _ Hpub Hi) as Hnp.
    destruct t as [pc|q pc]; [|reflexivity].
    unfold holds_lock in Hh. rewrite Hnp in Hh. discriminate Hh. }
  rewrite Hcur. unfold current.
  destruct (last (publishes c)) as [d|] eqn:Hlast; cbn; [right|now left].
  pose proof (last_Some_elem_of _ _ Hlast) as Hd.
  split; [|exact Hd].
  rewrite Forall_forall in H4. apply H4. exact Hd.
Qed.

Lemma snapshot_all_or_none_witness :
  latest_data (world_with old_reports ∅) = initial_latest_data /\
  Forall complete
    (publishes (run busy_morning (boot (world_with old_reports ∅)))) /\
  (existsb in_publish
     (threads (run busy_morning (boot (world_with old_reports ∅)))) = true \/
   latest_data (world (run busy_morning (boot (world_with old_reports ∅)))) =
     initial_latest_data \/
   (complete
      (latest_data
         (world (run busy_morning (boot (world_with old_reports ∅))))) /\
    latest_data (world (run busy_morning (boot (world_with old_reports ∅))))
      ∈ publishes (run busy_morning (boot (world_with old_reports ∅))))) /\
  Forall (answered_from
            (initial_latest_data ::
             publishes (run busy_morning (boot (world_with old_reports ∅)))))
         (threads (run busy_morning (boot (world_with old_reports ∅)))).
Proof.
  split; [reflexivity|].
  apply (snapshot_all_or_none (world_with old_reports ∅) busy_morning).
  reflexivity.
Defined.

(** In that morning the summary query is answered before any publish and
    gets 'No data available'; the shipment query runs between the two
    publishes and gets the shipments of the first; in the end the
    dictionary holds what the second publish stored. *)
Example busy_morning_responses :
  threads (run busy_morning (boot (world_with old_reports ∅))) =
    [ Refresh Returned;
      Handler Summary
        (Responded (Ok (error_response "No data available" 404)));
      Refresh Returned;
      Handler (Department "shipment")
        (Responded (get_department_data "shipment"
           (snapshot ten_purchases two_runs two_runs no_shipments
                     eight_o_clock))) ] /\
  publishes (run busy_morning (boot (world_with old_reports ∅))) =
    [ snapshot ten_purchases two_runs two_runs no_shipments eight_o_clock;
      snapshot ten_purchases two_runs two_runs (one_shipment "Dispatched")
               nine_o_clock ] /\
  latest_data (world (run busy_morning (boot (world_with old_reports ∅)))) =
    snapshot ten_purchases two_runs two_runs (one_shipment "Dispatched")
             nine_o_clock.
Proof.
  vm_compute. repeat split; reflexivity.
Qed.

(** ** Department route *)

(** C10. Before the first publish the department route answers
    'No data available' (404) for every name, valid or not: the no-data
    test comes first.  Once a snapshot is published, a name outside
    purchase, production, packing, shipment gets 'Invalid department'
    (400) and no data.  Serving the request leaves the dictionary, the
    files and the log as they are. *)
Theorem department_route_errors :
  (forall (dept_name : string) (d : LatestData),
     last_updated d = None ->
     get_department_data dept_name d =
       Ok (error_response "No data available" 404)) /\
  (forall (dept_name : string) (d : LatestData) (t : datetime),
     last_updated d = Some t ->
     valid_department dept_name = false ->
     get_department_data dept_name d =
       Ok (error_response "Invalid department" 400)) /\
  (forall (i : nat) (dept_name : string) (pc pc' : HandlerPc) (c c' : Config),
     handler_step i (Department dept_name) pc c = Some (pc', c') ->
     world c' = world c).
Proof.
  split; [|split].
  - intros dept_name d Hnone. unfold get_department_data.
    now rewrite Hnone.
  - intros dept_name d t Hsome Hbad. unfold get_department_data.
    rewrite Hsome. unfold valid_department in Hbad. simpl in Hbad.
    repeat (apply orb_false_elim in Hbad; destruct Hbad as [? Hbad]).
    simpl.
    repeat match goal with
    | H : String.eqb _ _ = false |- _ => rewrite H; clear H
    end.
    reflexivity.
  - intros i dept_name pc pc' c c' Hstep.
    apply (handler_step_world _ _ _ _ _ _ Hstep).
Qed.

Lemma department_route_errors_witness :
  get_department_data "purchase" initial_latest_data =
    Ok (error_response "No data available" 404) /\
  get_department_data "finance" initial_latest_data =
    Ok (error_response "No data available" 404) /\
  get_department_data "finance"
    (snapshot ten_purchases two_runs two_runs no_shipments eight_o_clock) =
    Ok (error_response "Invalid department" 400) /\
  world (with_lock (boot (world_with old_reports ∅)) None) =
    world (boot (world_with old_reports ∅)).
Proof.
  destruct department_route_errors as (Hnone & Hbad & Hsame).
  split; [apply Hnone; reflexivity|].
  split; [apply Hnone; reflexivity|].
  split; [apply (Hbad "finance" _ eight_o_clock); reflexivity|].
  apply (Hsame 0%nat "finance" (HRelease (Ok (error_response "" 0)))
               (Responded (Ok (error_response "" 0)))).
  reflexivity.
Defined.

(** * More of the code *)

(** ** File names and the sweep patterns *)

Lemma fnmatch_star (pat s : list ascii) :
  fnmatch_chars ("*"%char :: pat) s = true <->
  exists s1 s2, s = (s1 ++ s2)%list /\ fnmatch_chars pat s2 = true.
Proof.
  cbn [fnmatch_chars].
  induction s as [|c s IH].
  - rewrite orb_false_r. split.
    + intros H. exists [], []. split; [reflexivity|exact H].
    + intros (s1 & s2 & Hs & H).
      symmetry in Hs. apply app_eq_nil in Hs as [-> ->]. exact H.
  - rewrite orb_true_iff, IH. split.
    + intros [H|(s1 & s2 & -> & H)].
      * exists [], (c :: s). split; [reflexivity|exact H].
      * exists (c :: s1), s2. split; [reflexivity|exact H].
    + intros (s1 & s2 & Hs & H). destruct s1 as [|c1 s1].
      * left. cbn in Hs. now rewrite Hs.
      * right. injection Hs as -> ->. exists s1, s2. split; [reflexivity|exact H].
Qed.

Lemma fnmatch_plain_char (c : ascii) (pat s : list ascii) :
  plain_char c = true ->
  fnmatch_chars (c :: pat) s = true <->
  exists s', s = c :: s' /\ fnmatch_chars pat s' = true.
Proof.
  unfold plain_char. intros [Hs Hq]%andb_prop.
  apply negb_true_iff in Hs, Hq.
  apply Ascii.eqb_neq in Hs, Hq.
  assert (fnmatch_chars (c :: pat) s =
          match s with
          | [] => false
          | d :: s' => Ascii.eqb c d && fnmatch_chars pat s'
          end) as ->.
  { destruct c as [[] [] [] [] [] [] [] []]; try reflexivity;
      exfalso; auto. }
  destruct s as [|d s']; split.
  - discriminate.
  - intros (s0 & Hs0 & _). discriminate Hs0.
  - intros [Hd H]%andb_prop. apply Ascii.eqb_eq in Hd as ->. eauto.
  - intros (s0 & [= -> ->] & H). now rewrite Ascii.eqb_refl.
Qed.

Lemma fnmatch_plain (pat s : list ascii) :
  forallb plain_char pat = true ->
  fnmatch_chars pat s = true <-> s = pat.
Proof.
  revert s. induction pat as [|c pat IH]; intros s Hp.
  - destruct s; cbn; split; congruence.
  - cbn in Hp. apply andb_prop in Hp as [Hc Hp].
    rewrite (fnmatch_plain_char c pat s Hc). split.
    + intros (s' & -> & H). f_equal. now apply IH.
    + intros ->. exists pat. split; [reflexivity|]. now apply IH.
Qed.

Lemma list_ascii_app (a b : string) :
  list_ascii_of_string (a ++ b) =
  (list_ascii_of_string a ++ list_ascii_of_string b)%list.
Proof.
  induction a as [|c a IH]; [reflexivity|].
  change (c :: list_ascii_of_string (a ++ b) =
          c :: (list_ascii_of_string a ++ list_ascii_of_string b)%list).
  now rewrite IH.
Qed.

Lemma string_of_list_app (a b : list ascii) :
  string_of_list_ascii (a ++ b)%list =
  string_of_list_ascii a ++ string_of_list_ascii b.
Proof.
  induction a as [|c a IH]; [reflexivity|].
  change (String c (string_of_list_ascii (a ++ b)%list) =
          String c (string_of_list_ascii a ++ string_of_list_ascii b)).
  now rewrite IH.
Qed.

Lemma glob_underscore_intro (ext a b : string) :
  plain ext = true -> fnmatch (a ++ "_" ++ b ++ ext) ("*_*" ++ ext) = true.
Proof.
  intros Hext. unfold fnmatch, plain in *.
  change (list_ascii_of_string ("*_*" ++ ext))
    with ("*"%char :: "_"%char :: "*"%char :: list_ascii_of_string ext).
  rewrite fnmatch_star.
  exists (list_ascii_of_string a),
         ("_"%char :: list_ascii_of_string b ++ list_ascii_of_string ext)%list.
  split.
  - rewrite !list_ascii_app. reflexivity.
  - apply (fnmatch_plain_char "_" _ _ eq_refl). eexists. split; [reflexivity|].
    apply fnmatch_star. exists (list_ascii_of_string b), (list_ascii_of_string ext).
    split; [reflexivity|]. now apply fnmatch_plain.
Qed.

(** X1. A sweep pattern [*_*<ext>] matches exactly the names that have an
    underscore somewhere before a final [<ext>]. *)
Theorem underscore_glob (ext name : string) :
  plain ext = true ->
  fnmatch name ("*_*" ++ ext) = true <->
  exists a b : string, name = a ++ "_" ++ b ++ ext.
Proof.
  intros Hext. split.
  - unfold fnmatch, plain in *.
    change (list_ascii_of_string ("*_*" ++ ext))
      with ("*"%char :: "_"%char :: "*"%char :: list_ascii_of_string ext).
    rewrite fnmatch_star.
    intros (s1 & s2 & Hs & H).
    apply (fnmatch_plain_char "_" _ _ eq_refl) in H as (s3 & -> & H).
    apply fnmatch_star in H as (s4 & s5 & -> & H).
    apply (fnmatch_plain _ _ Hext) in H as ->.
    exists (string_of_list_ascii s1), (string_of_list_ascii s4).
    rewrite <- (string_of_list_ascii_of_string name), Hs.
    rewrite string_of_list_app. cbn. rewrite string_of_list_app.
    now rewrite string_of_list_ascii_of_string.
  - intros (a & b & ->). now apply glob_underscore_intro.
Qed.

Lemma underscore_glob_witness :
  plain ".xlsx" = true /\
  (fnmatch "daily_report.xlsx" ("*_*" ++ ".xlsx") = true <->
   exists a b : string, "daily_report.xlsx" = a ++ "_" ++ b ++ ".xlsx").
Proof.
  split; [reflexivity|].
  apply (underscore_glob ".xlsx" "daily_report.xlsx"). reflexivity.
Defined.

(** X2. Whatever the timestamp, every file the report writer writes, stamped
    or latest, is visited by the sweep loop of its kind. *)
Theorem writer_paths_match_sweep (ts : string) :
  rglob_match report_dir "*_*.xlsx" (stamped_workbook ts) = true /\
  rglob_match report_dir "*_*.xlsx" latest_workbook = true /\
  Forall (fun name =>
            rglob_match csv_dir "*_*.csv" (stamped_csv name ts) = true /\
            rglob_match csv_dir "*_*.csv" (latest_csv name) = true)
         csv_base_names.
Proof.
  assert (forall a b, fnmatch (a ++ "_" ++ b ++ ".xlsx") "*_*.xlsx" = true)
    as Hx by (intros a b; now apply glob_underscore_intro).
  assert (forall a b, fnmatch (a ++ "_" ++ b ++ ".csv") "*_*.csv" = true)
    as Hc by (intros a b; now apply glob_underscore_intro).
  unfold rglob_match. cbn [report_dir csv_dir stamped_workbook latest_workbook
    stamped_csv latest_csv path_join app is_prefix length Nat.ltb Nat.leb
    andb List.last]. 
  split; [exact (Hx "daily" ("report_" ++ ts))|].
  split; [exact (Hx "daily" "report")|].
  repeat apply List.Forall_cons; try apply List.Forall_nil; split.
  - exact (Hc "purchase" ("data_" ++ ts)).
  - exact (Hc "purchase" "data").
  - exact (Hc "production" ("data_" ++ ts)).
  - exact (Hc "production" "data").
  - exact (Hc "packing" ("data_" ++ ts)).
  - exact (Hc "packing" "data").
  - exact (Hc "shipment" ("data_" ++ ts)).
  - exact (Hc "shipment" "data").
Qed.

(** ** Retention sweep, in general *)

Lemma sweep_unfold dir pattern cutoff what w :
  sweep dir pattern cutoff what w =
  for_each (candidates dir pattern w) (sweep_step cutoff what) w.
Proof. reflexivity. Qed.

Lemma for_each_cons {A : Type} (x : A) (l : list A) (f : A -> M unit) w :
  for_each (x :: l) f w =
  match f x w with
  | (w1, Ok _) => for_each l f w1
  | (w1, Raise e) => (w1, Raise e)
  end.
Proof. reflexivity. Qed.

Lemma sweep_step_spec cutoff what p w :
  exists w' r,
    sweep_step cutoff what p w = (w', r) /\ only_files_and_log w w' /\
    match fs w !! p with
    | None => r = Raise (FileNotFoundError p) /\ fs w' = fs w
    | Some f =>
        if (mtime f <? cutoff)%Z
        then if decide (p ∈ denied w)
             then r = Raise (OSError p) /\ fs w' = fs w
             else r = Ok tt /\ fs w' = delete p (fs w)
        else r = Ok tt /\ fs w' = fs w
    end.
Proof.
  unfold sweep_step, only_files_and_log. run_M.
  destruct (fs w !! p) as [f|] eqn:Hp; run_M.
  - destruct (mtime f <? cutoff)%Z; run_M.
    + rewrite Hp. destruct (decide (p ∈ denied w)); run_M;
        eexists _, _; (split; [reflexivity|]); cbn; auto 10.
    + eexists _, _; (split; [reflexivity|]); cbn; auto 10.
  - eexists _, _; (split; [reflexivity|]); cbn; auto 10.
Qed.

Lemma only_files_and_log_trans w1 w2 w3 :
  only_files_and_log w1 w2 -> only_files_and_log w2 w3 ->
  only_files_and_log w1 w3.
Proof.
  unfold only_files_and_log.
  intros (? & ? & ? & ? & ?) (? & ? & ? & ? & ?). repeat split; congruence.
Qed.

(** A loop of the sweep only removes expired, unprotected files of its
    list. *)
Lemma sweep_loop_swept cutoff what l w :
  swept cutoff l w (fst (for_each l (sweep_step cutoff what) w)).
Proof.
  revert w. induction l as [|p l IH]; intros w.
  - cbn. split; [repeat split|]. intros q. now left.
  - rewrite for_each_cons.
    destruct (sweep_step_spec cutoff what p w) as (w1 & r & -> & Henv & Hstep).
    assert (swept cutoff (p :: l) w w1) as H1.
    { split; [exact Henv|]. intros q.
      destruct (fs w !! p) as [f|] eqn:Hp.
      - destruct (mtime f <? cutoff)%Z eqn:Hold.
        + destruct (decide (p ∈ denied w)) as [Hd|Hd];
            destruct Hstep as [_ ->]; [now left|].
          destruct (decide (p = q)) as [<-|Hne].
          * right. rewrite lookup_delete_eq. split; [reflexivity|].
            split; [left|]. eauto.
          * left. now rewrite lookup_delete_ne.
        + destruct Hstep as [_ ->]. now left.
      - destruct Hstep as [_ ->]. now left. }
    destruct r as [[]|e]; [|exact H1].
    specialize (IH w1). destruct IH as [Henv2 IH].
    destruct H1 as [_ H1].
    split; [eapply only_files_and_log_trans; eassumption|].
    intros q. destruct (IH q) as [Hq|(Hq & Hin & f & Hf & Hold & Hd)].
    + rewrite Hq. destruct (H1 q) as [Hq1|(Hq1 & Hin & Hf)]; [now left|].
      right. auto.
    + right. split; [exact Hq|]. split; [now right|].
      destruct (H1 q) as [Hq1|(Hq1 & _)]; [|congruence].
      exists f. rewrite <- Hq1. split; [exact Hf|]. split; [exact Hold|].
      destruct Henv as (_ & _ & <- & _). exact Hd.
Qed.

(** With no protected file in the way, a loop of the sweep removes every
    expired file of its list and does not raise. *)
Lemma sweep_loop_complete cutoff what l w :
  NoDup l ->
  (forall p, p ∈ l -> is_Some (fs w !! p)) ->
  (forall p f, p ∈ l -> fs w !! p = Some f ->
               (mtime f <? cutoff)%Z = true -> p ∉ denied w) ->
  snd (for_each l (sweep_step cutoff what) w) = Ok tt /\
  forall q f, q ∈ l -> fs w !! q = Some f -> (mtime f <? cutoff)%Z = true ->
              fs (fst (for_each l (sweep_step cutoff what) w)) !! q = None.
Proof.
  revert w. induction l as [|p l IH]; intros w Hnd Hex Hfree.
  - cbn. split; [reflexivity|]. intros q f Hq. inversion Hq.
  - rewrite for_each_cons.
    apply NoDup_cons in Hnd as [Hp Hnd].
    destruct (sweep_step_spec cutoff what p w) as (w1 & r & -> & Henv & Hstep).
    destruct (Hex p ltac:(left)) as [fp Hfp]. rewrite Hfp in Hstep.
    assert (r = Ok tt /\
            (forall q, q <> p -> fs w1 !! q = fs w !! q) /\
            ((mtime fp <? cutoff)%Z = true -> fs w1 !! p = None))
      as (-> & Hother & Hgone).
    { destruct (mtime fp <? cutoff)%Z eqn:Hold.
      - destruct (decide (p ∈ denied w)) as [Hd|Hd].
        + exfalso. eapply (Hfree p fp); [left|exact Hfp|exact Hold|exact Hd].
        + destruct Hstep as [-> ->]. split; [reflexivity|]. split.
          * intros q Hq. now rewrite lookup_delete_ne.
          * intros _. apply lookup_delete_eq.
      - destruct Hstep as [-> ->]. split; [reflexivity|]. split; [auto|].
        discriminate. }
    assert (forall q, q ∈ l -> q <> p) as Hlp by (intros q Hq ->; auto).
    destruct (IH w1 Hnd) as [Hok Hdel].
    { intros q Hq. rewrite (Hother q (Hlp q Hq)). apply Hex. now right. }
    { intros q f Hq Hf Hold. destruct Henv as (_ & _ & -> & _).
      rewrite (Hother q (Hlp q Hq)) in Hf.
      eapply Hfree; [right; exact Hq|exact Hf|exact Hold]. }
    split; [exact Hok|].
    intros q f [->|Hq]%elem_of_cons Hf Hold.
    + rewrite Hfp in Hf. injection Hf as <-.
      destruct (sweep_loop_swept cutoff what l w1) as [_ Hsw].
      destruct (Hsw p) as [Hsame|(Hnone & _)]; [|exact Hnone].
      rewrite Hsame. now apply Hgone.
    + apply (Hdel q f Hq); [|exact Hold].
      now rewrite (Hother q (Hlp q Hq)).
Qed.

(** A protected, expired file in its list makes a loop of the sweep
    raise. *)
Lemma sweep_loop_blocked cutoff what l w p f :
  p ∈ l -> fs w !! p = Some f -> (mtime f <? cutoff)%Z = true ->
  p ∈ denied w ->
  exists e, snd (for_each l (sweep_step cutoff what) w) = Raise e.
Proof.
  revert w. induction l as [|p0 l IH]; intros w Hin Hf Hold Hd.
  - inversion Hin.
  - rewrite for_each_cons.
    destruct (sweep_step_spec cutoff what p0 w) as (w1 & r & -> & Henv & Hstep).
    destruct r as [[]|e]; [|eauto].
    apply elem_of_cons in Hin as [->|Hin].
    + rewrite Hf, Hold in Hstep.
      destruct (decide (p0 ∈ denied w)); [|contradiction].
      destruct Hstep as [Hr _]. discriminate Hr.
    + assert (denied w1 = denied w) as Hden by (destruct Henv as (_ & _ & -> & _); reflexivity).
      assert (fs w1 !! p = Some f) as Hf1.
      { destruct (fs w !! p0) as [f0|];
          [|destruct Hstep as [Hr _]; discriminate Hr].
        destruct (mtime f0 <? cutoff)%Z.
        - destruct (decide (p0 ∈ denied w)) as [Hd0|Hd0];
            destruct Hstep as [Hr Hfs]; [discriminate Hr|].
          rewrite Hfs, lookup_delete_ne; [exact Hf|].
          intros ->. contradiction.
        - destruct Hstep as [_ ->]. exact Hf. }
      apply (IH w1 Hin Hf1 Hold). now rewrite Hden.
Qed.

Lemma cleanup_unfold days w :
  cleanup_old_reports days w =
  let w0 := add_log (INFO ("Cleaning up reports older than " ++
                           sign_str days ++ digits (Z.abs days) ++ " days..."))
                    w in
  match sweep report_dir "*_*.xlsx" (cutoff_of days w)
              "Deleted old report: " w0 with
  | (w1, Ok _) =>
      match sweep csv_dir "*_*.csv" (cutoff_of days w)
                  "Deleted old CSV: " w1 with
      | (w2, Ok _) => (w2, Ok tt)
      | (w2, Raise e) =>
          (add_log (ERROR ("Error during cleanup: " ++ exn_str e)) w2, Ok tt)
      end
  | (w1, Raise e) =>
      (add_log (ERROR ("Error during cleanup: " ++ exn_str e)) w1, Ok tt)
  end.
Proof.
  unfold cleanup_old_reports, cutoff_of.
  cbv beta iota zeta delta
    [try_except logger_info logger_error modify now gets
     mbind M_bind mret M_ret].
  cbn [clock add_log].
  destruct (sweep report_dir "*_*.xlsx" _ _ _) as [w1 [[]|e]];
    [|reflexivity].
  destruct (sweep csv_dir "*_*.csv" _ _ _) as [w2 [[]|e]]; reflexivity.
Qed.

Lemma elem_of_candidates dir pattern w p :
  p ∈ candidates dir pattern w <->
  rglob_match dir pattern p = true /\ is_Some (fs w !! p).
Proof.
  unfold candidates. rewrite list_elem_of_filter, list_elem_of_In, in_map_iff.
  split.
  - intros [Hm ([q f] & <- & Hin)]. split; [exact Hm|].
    apply list_elem_of_In, elem_of_map_to_list in Hin. cbn. eauto.
  - intros [Hm [f Hf]]. split; [exact Hm|]. exists (p, f). split; [reflexivity|].
    now apply list_elem_of_In, elem_of_map_to_list.
Qed.

Lemma NoDup_candidates dir pattern w : NoDup (candidates dir pattern w).
Proof.
  unfold candidates. apply NoDup_filter.
  replace (map fst (map_to_list (fs w))) with ((map_to_list (fs w)).*1).
  - apply NoDup_fst_map_to_list.
  - induction (map_to_list (fs w)) as [|x l IH]; [reflexivity|].
    cbn. now rewrite IH.
Qed.

Lemma swept_trans cutoff l1 l2 w1 w2 w3 :
  swept cutoff l1 w1 w2 -> swept cutoff l2 w2 w3 ->
  swept cutoff (l1 ++ l2) w1 w3.
Proof.
  intros [Henv1 H1] [Henv2 H2].
  split; [eapply only_files_and_log_trans; eassumption|].
  intros q. destruct (H2 q) as [Hq|(Hq & Hin & f & Hf & Hold & Hd)].
  - rewrite Hq. destruct (H1 q) as [Hq1|(Hq1 & Hin & Hf)]; [now left|].
    right. split; [exact Hq1|]. split; [|exact Hf].
    apply elem_of_app. now left.
  - right. split; [exact Hq|]. split; [apply elem_of_app; now right|].
    destruct (H1 q) as [Hq1|(Hq1 & _)]; [|congruence].
    exists f. rewrite <- Hq1. split; [exact Hf|]. split; [exact Hold|].
    destruct Henv1 as (_ & _ & <- & _). exact Hd.
Qed.

Lemma swept_add_log cutoff l r w w' :
  swept cutoff l (add_log r w) w' -> swept cutoff l w w'.
Proof. intros H. exact H. Qed.

Lemma swept_log_after cutoff l r w w' :
  swept cutoff l w w' -> swept cutoff l w (add_log r w').
Proof. intros H. exact H. Qed.

(** The whole sweep, seen as one pass over the files both loops visit. *)
Lemma cleanup_swept days w :
  snd (cleanup_old_reports days w) = Ok tt /\
  exists l,
    (forall q, q ∈ l -> sweep_candidate q = true) /\
    swept (cutoff_of days w) l w (fst (cleanup_old_reports days w)).
Proof.
  rewrite cleanup_unfold. cbv zeta.
  set (w0 := add_log _ w). rewrite !sweep_unfold.
  pose proof (sweep_loop_swept (cutoff_of days w) "Deleted old report: "
                (candidates report_dir "*_*.xlsx" w0) w0) as H1.
  destruct (for_each (candidates report_dir "*_*.xlsx" w0) _ w0)
    as [w1 r1]. cbn [fst] in H1.
  assert (forall q, q ∈ candidates report_dir "*_*.xlsx" w0 ->
                    sweep_candidate q = true) as Hc1.
  { intros q [Hq _]%elem_of_candidates. unfold sweep_candidate.
    now rewrite Hq. }
  destruct r1 as [[]|e1].
  - rewrite sweep_unfold.
    pose proof (sweep_loop_swept (cutoff_of days w) "Deleted old CSV: "
                  (candidates csv_dir "*_*.csv" w1) w1) as H2.
    destruct (for_each (candidates csv_dir "*_*.csv" w1) _ w1) as [w2 r2].
    cbn [fst] in H2.
    assert (swept (cutoff_of days w)
              (candidates report_dir "*_*.xlsx" w0 ++
               candidates csv_dir "*_*.csv" w1)%list w w2) as H12
      by (eapply swept_trans; [exact H1|exact H2]).
    assert (forall q, q ∈ (candidates report_dir "*_*.xlsx" w0 ++
                           candidates csv_dir "*_*.csv" w1)%list ->
                      sweep_candidate q = true) as Hc.
    { intros q [Hq|[Hq _]%elem_of_candidates]%elem_of_app; [auto|].
      unfold sweep_candidate. rewrite Hq. apply orb_true_r. }
    destruct r2 as [[]|e2]; (split; [reflexivity|]); eexists; split;
      try exact Hc; exact H12.
  - split; [reflexivity|]. eexists. split; [exact Hc1|exact H1].
Qed.

Lemma sweep_files (days : Z) (w : World) (q : Path) :
  fs (fst (cleanup_old_reports days w)) !! q = fs w !! q \/
  (fs (fst (cleanup_old_reports days w)) !! q = None /\
   exists f, fs w !! q = Some f /\ sweep_candidate q = true /\
             expired days w f = true /\ q ∉ denied w).
Proof.
  destruct (cleanup_swept days w) as (_ & l & Hl & [_ Hsw]).
  destruct (Hsw q) as [Hq|(Hq & Hin & f & Hf & Hold & Hd)];
    [now left|right].
  split; [exact Hq|]. exists f. unfold expired. auto.
Qed.

(** X3. The sweep never raises, leaves the snapshot dictionary alone, and
    its only effect on the files is to delete: a file that is there
    afterwards was there before, unchanged, and a file that is gone was
    visited by a loop, older than the cutoff and not protected. *)
Theorem cleanup_only_deletes (days : Z) (w : World) :
  snd (cleanup_old_reports days w) = Ok tt /\
  latest_data (fst (cleanup_old_reports days w)) = latest_data w /\
  forall q,
    fs (fst (cleanup_old_reports days w)) !! q = fs w !! q \/
    (fs (fst (cleanup_old_reports days w)) !! q = None /\
     exists f, fs w !! q = Some f /\ sweep_candidate q = true /\
               expired days w f = true /\ q ∉ denied w).
Proof.
  destruct (cleanup_swept days w) as (Hok & l & Hl & [Henv Hsw]).
  split; [exact Hok|]. split; [apply Henv|].
  intros q. apply sweep_files.
Qed.

(** X4. Retention boundary: a file survives the sweep when its name is
    not visited, when it is protected, or when it is not strictly older
    than [days] days; a file exactly [days] days old is kept. *)
Theorem cleanup_keeps (days : Z) (w : World) (q : Path) (f : File) :
  fs w !! q = Some f ->
  sweep_candidate q = false \/ q ∈ denied w \/
    (epoch (clock w) - days * 86400 <= mtime f)%Z ->
  fs (fst (cleanup_old_reports days w)) !! q = Some f.
Proof.
  intros Hf Hsafe.
  destruct (sweep_files days w q) as [->|(_ & f' & Hf' & Hc & Hold & Hd)];
    [exact Hf|].
  exfalso. rewrite Hf in Hf'. injection Hf' as <-.
  unfold expired, cutoff_of in Hold. apply Z.ltb_lt in Hold.
  destruct Hsafe as [Hs|[Hs|Hs]]; [congruence|contradiction|lia].
Qed.

Lemma sweep_outcome (days : Z) (w : World) :
  sweep_unhindered days w ->
  forall q,
    fs (fst (cleanup_old_reports days w)) !! q =
    match fs w !! q with
    | Some f => if sweep_candidate q && expired days w f then None else Some f
    | None => None
    end.
Proof.
  intros Hfree q.
  pose proof (sweep_files days w) as Hdel.
  destruct (fs w !! q) as [f|] eqn:Hf;
    [|destruct (Hdel q) as [->|(Hq & _)]; [exact Hf|exact Hq]].
  destruct (sweep_candidate q && expired days w f) eqn:Hdoomed.
  2:{ destruct (Hdel q) as [->|(_ & f' & Hf' & Hc' & Hold' & _)];
        [exact Hf|].
      rewrite Hf in Hf'. injection Hf' as <-.
      rewrite Hc', Hold' in Hdoomed. discriminate Hdoomed. }
  apply andb_prop in Hdoomed as [Hc He].
  rewrite cleanup_unfold. cbv zeta. set (w0 := add_log _ w).
  rewrite sweep_unfold.
  pose proof (sweep_loop_swept (cutoff_of days w) "Deleted old report: "
                (candidates report_dir "*_*.xlsx" w0) w0) as [Henv1 H1].
  destruct (sweep_loop_complete (cutoff_of days w) "Deleted old report: "
              (candidates report_dir "*_*.xlsx" w0) w0) as [Hok1 Hgone1].
  { apply NoDup_candidates. }
  { intros p Hp. now apply elem_of_candidates in Hp. }
  { intros p fp [Hp _]%elem_of_candidates Hfp Hold.
    apply (Hfree p fp Hfp); [|exact Hold].
    unfold sweep_candidate. now rewrite Hp. }
  destruct (for_each (candidates report_dir "*_*.xlsx" w0) _ w0)
    as [w1 r1]. cbn [fst snd] in *. subst r1.
  rewrite sweep_unfold.
  pose proof (sweep_loop_swept (cutoff_of days w) "Deleted old CSV: "
                (candidates csv_dir "*_*.csv" w1) w1) as [Henv2 H2].
  destruct (sweep_loop_complete (cutoff_of days w) "Deleted old CSV: "
              (candidates csv_dir "*_*.csv" w1) w1) as [Hok2 Hgone2].
  { apply NoDup_candidates. }
  { intros p Hp. now apply elem_of_candidates in Hp. }
  { intros p fp [Hp _]%elem_of_candidates Hfp Hold.
    destruct Henv1 as (_ & _ & -> & _).
    destruct (H1 p) as [Hsame|(Hnone & _)]; [|congruence].
    rewrite Hsame in Hfp. apply (Hfree p fp Hfp); [|exact Hold].
    unfold sweep_candidate. rewrite Hp. apply orb_true_r. }
  destruct (for_each (candidates csv_dir "*_*.csv" w1) _ w1) as [w2 r2].
  cbn [fst snd] in *. subst r2. cbn [fst].
  destruct (H2 q) as [Hq2|(Hq2 & _)]; [|exact Hq2]. rewrite Hq2.
  destruct (H1 q) as [Hq1|(Hq1 & _)]; [|exact Hq1].
  change (fs w0) with (fs w) in Hq1. rewrite Hf in Hq1.
  unfold sweep_candidate in Hc. apply orb_prop in Hc as [Hx|Hcsv].
  - rewrite (Hgone1 q f) in Hq1; [discriminate Hq1| |exact Hf|exact He].
    apply elem_of_candidates. split; [exact Hx|]. change (fs w0) with (fs w).
    rewrite Hf. eauto.
  - rewrite <- Hq2. apply (Hgone2 q f); [|exact Hq1|exact He].
    apply elem_of_candidates. split; [exact Hcsv|]. rewrite Hq1. eauto.
Qed.

(** X5. With no protected file in the way the sweep is complete: the
    files left are exactly the files that are not both visited by a loop
    and older than the cutoff, each as it was. *)
Theorem cleanup_complete (days : Z) (w : World) :
  sweep_unhindered days w ->
  fs (fst (cleanup_old_reports days w)) =
  filter (fun kv : Path * File =>
            sweep_candidate kv.1 && expired days w kv.2 = false)
         (fs w).
Proof.
  intros Hfree. apply map_eq. intros q.
  rewrite (sweep_outcome days w Hfree q), map_lookup_filter.
  destruct (fs w !! q) as [f|]; [|reflexivity].
  cbn [mbind option_bind fst snd].
  destruct (sweep_candidate q && expired days w f);
    [rewrite option_guard_False by discriminate|
     rewrite option_guard_True by reflexivity]; reflexivity.
Qed.

(** X6. With no protected file in the way the sweep is idempotent: a
    second sweep at the same time deletes nothing more. *)
Theorem cleanup_idempotent (days : Z) (w : World) :
  sweep_unhindered days w ->
  fs (fst (cleanup_old_reports days
             (fst (cleanup_old_reports days w)))) =
  fs (fst (cleanup_old_reports days w)).
Proof.
  intros Hfree.
  destruct (cleanup_swept days w) as (_ & l & _ & [Henv Hsw]).
  set (w' := fst (cleanup_old_reports days w)) in *.
  assert (forall f, expired days w' f = expired days w f) as Hexp.
  { intros f. unfold expired, cutoff_of.
    destruct Henv as (_ & _ & _ & -> & _). reflexivity. }
  assert (sweep_unhindered days w') as Hfree'.
  { intros p f Hf Hc He. destruct Henv as (_ & _ & -> & _).
    destruct (Hsw p) as [Hsame|(Hnone & _)]; [|congruence].
    rewrite Hsame in Hf. rewrite Hexp in He. eapply Hfree; eassumption. }
  apply map_eq. intros q.
  rewrite (sweep_outcome days w' Hfree' q).
  destruct (fs w' !! q) as [f|] eqn:Hf; [|reflexivity].
  unfold w' in Hf. rewrite (sweep_outcome days w Hfree q) in Hf.
  destruct (fs w !! q) as [f0|]; [|discriminate Hf].
  rewrite Hexp.
  destruct (sweep_candidate q && expired days w f0) eqn:Hd;
    [discriminate Hf|].
  injection Hf as <-. now rewrite Hd.
Qed.

(** X7. One protected, expired workbook file stops the whole sweep: the
    loop over the workbooks raises, the error is logged, and the CSV loop
    never runs, so no file outside the workbook pattern is deleted. *)
Theorem cleanup_blocked (days : Z) (w : World) (p : Path) (f : File) :
  fs w !! p = Some f ->
  rglob_match report_dir "*_*.xlsx" p = true ->
  expired days w f = true ->
  p ∈ denied w ->
  (forall q, rglob_match report_dir "*_*.xlsx" q = false ->
             fs (fst (cleanup_old_reports days w)) !! q = fs w !! q) /\
  exists e,
    last (log (fst (cleanup_old_reports days w))) =
      Some (ERROR ("Error during cleanup: " ++ exn_str e)).
Proof.
  intros Hf Hx He Hd.
  rewrite cleanup_unfold. cbv zeta. set (w0 := add_log _ w).
  rewrite sweep_unfold.
  pose proof (sweep_loop_swept (cutoff_of days w) "Deleted old report: "
                (candidates report_dir "*_*.xlsx" w0) w0) as [_ H1].
  destruct (sweep_loop_blocked (cutoff_of days w) "Deleted old report: "
              (candidates report_dir "*_*.xlsx" w0) w0 p f) as [e Hraise];
    try assumption.
  { apply elem_of_candidates. split; [exact Hx|].
    change (fs w0) with (fs w). rewrite Hf. eauto. }
  destruct (for_each (candidates report_dir "*_*.xlsx" w0) _ w0)
    as [w1 r1]. cbn [fst snd] in *. subst r1. cbn [fst].
  split.
  - intros q Hq. change (fs (add_log _ w1)) with (fs w1).
    destruct (H1 q) as [Hsame|(_ & Hin & _)]; [exact Hsame|].
    apply elem_of_candidates in Hin as [Hin _]. congruence.
  - exists e. cbn [log add_log]. apply last_snoc.
Qed.

Lemma cleanup_keeps_witness :
  fs (world_with aged_reports ∅) !! stamped_workbook "20240204_080000" =
    Some (aged_workbook 30) /\
  (epoch (clock (world_with aged_reports ∅)) - 30 * 86400 <=
   mtime (aged_workbook 30))%Z /\
  fs (fst (cleanup_old_reports 30 (world_with aged_reports ∅)))
    !! stamped_workbook "20240204_080000" = Some (aged_workbook 30).
Proof.
  split; [vm_compute; reflexivity|]. split; [vm_compute; discriminate|].
  apply (cleanup_keeps 30 (world_with aged_reports ∅)
           (stamped_workbook "20240204_080000") (aged_workbook 30)).
  - vm_compute; reflexivity.
  - right; right. vm_compute; discriminate.
Defined.

Lemma unhindered_without_protection days files :
  sweep_unhindered days (world_with files ∅).
Proof. intros p f _ _ _. apply not_elem_of_empty. Qed.

Lemma cleanup_complete_witness :
  sweep_unhindered 30 (world_with aged_reports ∅) /\
  fs (fst (cleanup_old_reports 30 (world_with aged_reports ∅)))
    !! stamped_workbook "20240203_080000" = None /\
  fs (fst (cleanup_old_reports 30 (world_with aged_reports ∅)))
    !! stamped_workbook "20240205_080000" = Some (aged_workbook 29).
Proof.
  split; [apply unhindered_without_protection|].
  split.
  - rewrite (cleanup_complete 30 (world_with aged_reports ∅)
               (unhindered_without_protection 30 aged_reports)).
    vm_compute; reflexivity.
  - rewrite (cleanup_complete 30 (world_with aged_reports ∅)
               (unhindered_without_protection 30 aged_reports)).
    vm_compute; reflexivity.
Defined.

Lemma cleanup_idempotent_witness :
  sweep_unhindered 30 (world_with old_reports ∅) /\
  fs (fst (cleanup_old_reports 30
             (fst (cleanup_old_reports 30 (world_with old_reports ∅))))) =
  fs (fst (cleanup_old_reports 30 (world_with old_reports ∅))).
Proof.
  split; [apply unhindered_without_protection|].
  apply (cleanup_idempotent 30 (world_with old_reports ∅)).
  apply unhindered_without_protection.
Defined.

Lemma cleanup_blocked_witness :
  fs (world_with old_reports {[ latest_workbook ]}) !! latest_workbook =
    Some {| mtime := epoch eight_o_clock - 40 * seconds_per_day;
            content := Workbook [("Purchase", no_shipments)] |} /\
  latest_workbook ∈ denied (world_with old_reports {[ latest_workbook ]}) /\
  (forall q, rglob_match report_dir "*_*.xlsx" q = false ->
     fs (fst (cleanup_old_reports 30
                (world_with old_reports {[ latest_workbook ]}))) !! q =
     fs (world_with old_reports {[ latest_workbook ]}) !! q) /\
  exists e,
    last (log (fst (cleanup_old_reports 30
                      (world_with old_reports {[ latest_workbook ]})))) =
      Some (ERROR ("Error during cleanup: " ++ exn_str e)).
Proof.
  split; [vm_compute; reflexivity|].
  split; [vm_compute; reflexivity|].
  apply (cleanup_blocked 30 (world_with old_reports {[ latest_workbook ]})
           latest_workbook
           {| mtime := epoch eight_o_clock - 40 * seconds_per_day;
              content := Workbook [("Purchase", no_shipments)] |}).
  - vm_compute; reflexivity.
  - vm_compute; reflexivity.
  - vm_compute; reflexivity.
  - vm_compute; reflexivity.
Defined.

(** ** What the report writer writes *)

Ltac lookup_others :=
  repeat first
    [ rewrite lookup_insert_ne by congruence
    | rewrite lookup_insert_ne by (let H := fresh in intros H; discriminate H) ].

(** X8. The report writer touches no file but its own ten: whatever the
    outcome of the two calls, every other path holds what it held. *)
Theorem writer_touches_only_its_files
    (p pr pk s : DataFrame) (w : World) (q : Path) :
  q ∉ artifact_paths (strftime_compact (clock w)) ->
  fs (fst (generate_excel_reports p pr pk s w)) !! q = fs w !! q /\
  fs (fst (generate_csv_exports p pr pk s w)) !! q = fs w !! q.
Proof.
  unfold artifact_paths, csv_base_names. cbn [flat_map app].
  rewrite !not_elem_of_cons.
  intros (H1 & H2 & H3 & H4 & H5 & H6 & H7 & H8 & H9 & H10 & _).
  split.
  - unfold generate_excel_reports, with_ExcelWriter.
    unfold stamped_workbook, latest_workbook in *.
    destruct (_create_summary p pr pk s) as [summary|e]; run_M;
      repeat step_io; lookup_others; reflexivity.
  - unfold generate_csv_exports. unfold stamped_csv, latest_csv in *.
    run_M. repeat step_io; lookup_others; reflexivity.
Qed.

Lemma writer_touches_only_its_files_witness :
  ((report_dir </> ".gitkeep")
     ∉ artifact_paths (strftime_compact (clock (world_with old_reports ∅)))) /\
  fs (fst (generate_excel_reports ten_purchases two_runs two_runs no_shipments
             (world_with old_reports ∅))) !! (report_dir </> ".gitkeep") =
    fs (world_with old_reports ∅) !! (report_dir </> ".gitkeep") /\
  fs (fst (generate_csv_exports ten_purchases two_runs two_runs no_shipments
             (world_with old_reports ∅))) !! (report_dir </> ".gitkeep") =
    fs (world_with old_reports ∅) !! (report_dir </> ".gitkeep").
Proof.
  assert ((report_dir </> ".gitkeep")
            ∉ artifact_paths
                (strftime_compact (clock (world_with old_reports ∅)))) as H.
  { unfold artifact_paths, csv_base_names. cbn [flat_map app].
    rewrite !not_elem_of_cons.
    repeat split; try (intros E; discriminate E). apply not_elem_of_nil. }
  split; [exact H|].
  apply (writer_touches_only_its_files ten_purchases two_runs two_runs
           no_shipments (world_with old_reports ∅) (report_dir </> ".gitkeep")).
  exact H.
Defined.

Lemma excel_success (p pr pk s : DataFrame) (summary : list Dict) (w : World) :
  _create_summary p pr pk s = Ok summary ->
  stamped_workbook (strftime_compact (clock w)) ∉ denied w ->
  latest_workbook ∉ denied w ->
  exists w',
    generate_excel_reports p pr pk s w = (w', Ok tt) /\
    only_files_and_log w w' /\
    fs w' = <[ latest_workbook :=
                 written w (Workbook (workbook_sheets p pr pk s summary)) ]>
            (<[ stamped_workbook (strftime_compact (clock w)) :=
                  written w (Workbook (workbook_sheets p pr pk s summary)) ]>
             (fs w)).
Proof.
  intros Hsum Hs Hl.
  unfold generate_excel_reports, with_ExcelWriter, stamped_workbook,
    latest_workbook, only_files_and_log, written, workbook_sheets in *.
  rewrite Hsum. run_M.
  repeat (step_io; try contradiction).
  eexists. split; [reflexivity|]. cbn. auto 10.
Qed.

Lemma csv_success (p pr pk s : DataFrame) (w : World) :
  Forall (fun name =>
            (stamped_csv name (strftime_compact (clock w)) ∉ denied w) /\
            (latest_csv name ∉ denied w)) csv_base_names ->
  exists w',
    generate_csv_exports p pr pk s w = (w', Ok tt) /\
    only_files_and_log w w' /\
    (forall q, q ∉ flat_map (fun name =>
                    [stamped_csv name (strftime_compact (clock w));
                     latest_csv name]) csv_base_names ->
               fs w' !! q = fs w !! q) /\
    Forall (fun '(name, df) =>
              fs w' !! stamped_csv name (strftime_compact (clock w)) =
                Some (written w (Csv df)) /\
              fs w' !! latest_csv name = Some (written w (Csv df)))
           (csv_datasets p pr pk s).
Proof.
  unfold csv_base_names, csv_datasets. rewrite !Forall_cons.
  intros ([H1 H2] & [H3 H4] & [H5 H6] & [H7 H8] & _).
  unfold generate_csv_exports, stamped_csv, latest_csv, only_files_and_log,
    written in *.
  run_M. repeat (step_io; try contradiction).
  eexists. split; [reflexivity|]. split; [cbn; auto 10|]. split.
  - cbn [flat_map app]. intros q. rewrite !not_elem_of_cons.
    intros (? & ? & ? & ? & ? & ? & ? & ? & _).
    cbn [fs set_fs add_log]. lookup_others. reflexivity.
  - cbn [fs set_fs add_log].
    repeat apply List.Forall_cons; try apply List.Forall_nil;
      split; lookup_through; reflexivity.
Qed.

Lemma cycle_success
    (p pr pk s : DataFrame) (summary : list Dict) (w : World) :
  erp w = answers p pr pk s ->
  _create_summary p pr pk s = Ok summary ->
  Forall (fun q => q ∉ denied w)
         (artifact_paths (strftime_compact (clock w))) ->
  exists w',
    fetch_and_process_data w = (w', Ok tt) /\
    latest_data w' = snapshot p pr pk s (clock w) /\
    fs w' !! stamped_workbook (strftime_compact (clock w)) =
      Some (written w (Workbook (workbook_sheets p pr pk s summary))) /\
    fs w' !! latest_workbook =
      Some (written w (Workbook (workbook_sheets p pr pk s summary))) /\
    Forall (fun '(name, df) =>
              fs w' !! stamped_csv name (strftime_compact (clock w)) =
                Some (written w (Csv df)) /\
              fs w' !! latest_csv name = Some (written w (Csv df)))
           (csv_datasets p pr pk s) /\
    last (log w') = Some (INFO "Data processing completed successfully").
Proof.
  intros Herp Hsum Hfree.
  unfold artifact_paths in Hfree.
  apply Forall_cons in Hfree as [Hsw Hfree].
  apply Forall_cons in Hfree as [Hlw Hcsv].
  assert (Forall (fun name =>
            (stamped_csv name (strftime_compact (clock w)) ∉ denied w) /\
            (latest_csv name ∉ denied w)) csv_base_names) as Hcsv'.
  { unfold csv_base_names in *. cbn [flat_map app] in Hcsv.
    rewrite !Forall_cons in Hcsv. rewrite !Forall_cons.
    destruct Hcsv as (? & ? & ? & ? & ? & ? & ? & ? & _).
    repeat split; try assumption. constructor. }
  clear Hcsv.
  destruct w as [d r f dn c b l]. cbn [erp clock denied] in *. subst b.
  run_fetch.
  match goal with
  | |- context [generate_excel_reports p pr pk s ?w1] =>
      destruct (excel_success p pr pk s summary w1 Hsum Hsw Hlw)
        as (w2 & -> & Henv2 & Hfs2)
  end.
  cbn [clock denied fs add_log set_latest_data written epoch] in *.
  destruct Henv2 as (Hd2 & Hr2 & Hden2 & Hc2 & He2).
  cbn [latest_data running denied clock erp add_log set_latest_data] in *.
  rewrite <- Hden2, <- Hc2 in Hcsv'.
  destruct (csv_success p pr pk s w2 Hcsv')
    as (w3 & -> & Henv3 & Hframe3 & Hfiles3).
  destruct Henv3 as (Hd3 & Hr3 & Hden3 & Hc3 & He3).
  eexists. split; [reflexivity|].
  cbn [latest_data fs log add_log]. rewrite last_snoc.
  rewrite Hc2 in *. unfold written in *. rewrite Hc2 in Hfiles3.
  split; [rewrite Hd3, Hd2; reflexivity|].
  split; [|split; [|split; [exact Hfiles3|reflexivity]]].
  - rewrite Hframe3, Hfs2.
    + rewrite lookup_insert_ne by (intros H; discriminate H).
      apply lookup_insert_eq.
    + unfold csv_base_names. cbn [flat_map app]. rewrite !not_elem_of_cons.
      repeat split; try (intros H; discriminate H). apply not_elem_of_nil.
  - rewrite Hframe3, Hfs2.
    + apply lookup_insert_eq.
    + unfold csv_base_names. cbn [flat_map app]. rewrite !not_elem_of_cons.
      repeat split; try (intros H; discriminate H). apply not_elem_of_nil.
Qed.

(** X9. A cycle whose four fetches answer, whose summary can be computed
    and whose ten files can be written does everything: it publishes the
    snapshot, leaves the workbook (four data sheets and the summary) and
    the four exports under their stamped and their latest names, and logs
    the completion. *)
Theorem cycle_writes_all_artifacts
    (p pr pk s : DataFrame) (summary : list Dict) (w : World) :
  erp w = answers p pr pk s ->
  _create_summary p pr pk s = Ok summary ->
  Forall (fun q => q ∉ denied w)
         (artifact_paths (strftime_compact (clock w))) ->
  exists w',
    fetch_and_process_data w = (w', Ok tt) /\
    latest_data w' = snapshot p pr pk s (clock w) /\
    fs w' !! stamped_workbook (strftime_compact (clock w)) =
      Some (written w (Workbook (workbook_sheets p pr pk s summary))) /\
    fs w' !! latest_workbook =
      Some (written w (Workbook (workbook_sheets p pr pk s summary))) /\
    Forall (fun '(name, df) =>
              fs w' !! stamped_csv name (strftime_compact (clock w)) =
                Some (written w (Csv df)) /\
              fs w' !! latest_csv name = Some (written w (Csv df)))
           (csv_datasets p pr pk s) /\
    last (log w') = Some (INFO "Data processing completed successfully").
Proof. exact (cycle_success p pr pk s summary w). Qed.

Lemma cycle_writes_all_artifacts_witness :
  exists summary,
    erp (world_with old_reports ∅) =
      answers ten_purchases two_runs two_runs no_shipments /\
    _create_summary ten_purchases two_runs two_runs no_shipments =
      Ok summary /\
    Forall (fun q => q ∉ denied (world_with old_reports ∅))
           (artifact_paths
              (strftime_compact (clock (world_with old_reports ∅)))) /\
    exists w',
      fetch_and_process_data (world_with old_reports ∅) = (w', Ok tt) /\
      latest_data w' =
        snapshot ten_purchases two_runs two_runs no_shipments eight_o_clock /\
      fs w' !! latest_workbook =
        Some (written (world_with old_reports ∅)
                (Workbook (workbook_sheets ten_purchases two_runs two_runs
                             no_shipments summary))) /\
      last (log w') = Some (INFO "Data processing completed successfully").
Proof.
  eexists. split; [reflexivity|]. split; [vm_compute; reflexivity|].
  assert (Forall (fun q => q ∉ denied (world_with old_reports ∅))
            (artifact_paths
               (strftime_compact (clock (world_with old_reports ∅))))) as Hfree.
  { apply Forall_forall. intros q _. apply not_elem_of_empty. }
  split; [exact Hfree|].
  destruct (cycle_writes_all_artifacts ten_purchases two_runs two_runs
              no_shipments _ (world_with old_reports ∅) eq_refl eq_refl Hfree)
    as (w' & Hrun & Hd & _ & Hl & _ & Hlog).
  exists w'. auto.
Defined.

(** ** One cycle, whatever happens *)

(** X10. A cycle never raises.  It ends either with the completion record,
    or with an error record; and the dictionary it leaves is either the
    one it found (a fetch failed) or the complete snapshot of the four
    answers, also when a report call failed afterwards. *)
Theorem cycle_always_returns (w : World) :
  exists w',
    fetch_and_process_data w = (w', Ok tt) /\
    running w' = running w /\
    (last (log w') = Some (INFO "Data processing completed successfully") \/
     exists e, last (log w') =
                 Some (ERROR ("Error in data processing: " ++ exn_str e))) /\
    (latest_data w' = latest_data w \/
     exists p pr pk s,
       erp w = answers p pr pk s /\
       latest_data w' = snapshot p pr pk s (clock w)).
Proof.
  destruct w as [d r f dn c [[p|e1] [pr|e2] [pk|e3] [s|e4]] l].
  2-16: run_fetch; eexists; (split; [reflexivity|]);
    cbn [latest_data running log add_log]; rewrite last_snoc;
    split; [reflexivity|split; [right; eauto|left; reflexivity]].
  run_fetch.
  match goal with
  | |- context [generate_excel_reports p pr pk s ?w1] =>
      generalize (excel_keeps_store p pr pk s w1);
      destruct (generate_excel_reports p pr pk s w1) as [w2 [[]|e2]]
  end; cbn [fst snd].
  - generalize (csv_keeps_store p pr pk s w2).
    destruct (generate_csv_exports p pr pk s w2) as [w3 [[]|e3]];
      cbn [fst snd]; intros [Hs3 Hr3] [Hs2 Hr2];
      (eexists; split; [reflexivity|]);
      cbn [latest_data running clock erp log add_log set_latest_data] in *;
      rewrite last_snoc;
      (split; [congruence|]);
      (split; [first [left; reflexivity|right; eauto]|]);
      right; exists p, pr, pk, s;
      (split; [reflexivity|rewrite ?Hs3, Hs2; reflexivity]).
  - intros [Hs2 Hr2].
    eexists; split; [reflexivity|].
    cbn [latest_data running clock erp log add_log set_latest_data] in *.
    rewrite last_snoc. split; [congruence|]. split; [right; eauto|].
    right. exists p, pr, pk, s. split; [reflexivity|rewrite Hs2; reflexivity].
Qed.

Ltac settle_counts k :=
  rewrite ?fetch_calls_add_log, ?fetch_calls_set_latest,
    ?fetch_calls_add_log;
  destruct k;
  repeat match goal with
  | |- context [is_fetch_record ?a (INFO ("Retrieved " ++ ?x))] =>
      replace (is_fetch_record a (INFO ("Retrieved " ++ x))) with false
        by reflexivity
  | |- context [is_fetch_record ?a (ERROR ?x)] =>
      change (is_fetch_record a (ERROR x)) with false
  | |- context [is_fetch_record ?a ?b] =>
      let v := eval vm_compute in (is_fetch_record a b) in
      change (is_fetch_record a b) with v
  end;
  cbn [fst erp earlier_answer is_ok is_raise negb andb purchase_orders
       production_runs packing_jobs shipments Nat.b2n];
  lia.

(** X11. The four fetches run in the order purchase, production, packing,
    shipment, and the first failure ends the fetching: in one cycle the
    query of a kind is invoked once if every query before it answered,
    and not at all otherwise. *)
Theorem fetches_stop_at_first_failure (k : Kind) (w : World) :
  fetch_calls k (fst (fetch_and_process_data w)) =
  (fetch_calls k w + Nat.b2n (earlier_answer k (erp w)))%nat.
Proof.
  destruct w as [d r f dn c [[p|e1] [pr|e2] [pk|e3] [s|e4]] l].
  2-16: run_fetch; cbn [fst]; settle_counts k.
  run_fetch.
  match goal with
  | |- context [generate_excel_reports p pr pk s ?w1] =>
      generalize (excel_keeps_calls k p pr pk s w1);
      destruct (generate_excel_reports p pr pk s w1) as [w2 [[]|e2]]
  end; cbn [fst snd].
  - generalize (csv_keeps_calls k p pr pk s w2).
    destruct (generate_csv_exports p pr pk s w2) as [w3 [[]|e3]];
      cbn [fst snd]; intros H3 H2;
      rewrite !fetch_calls_add_log, H3, H2; settle_counts k.
  - intros H2. rewrite !fetch_calls_add_log, H2. settle_counts k.
Qed.

(** ** The query routes on a published snapshot *)



(** X13. The summary route reads the purchase amounts without testing for
    the column: on a snapshot whose purchase frame has no [amount] column
    it raises [KeyError], where the summary sheet of the same data
    reports N/A for the total. *)
Theorem live_summary_needs_amount (p pr pk s : DataFrame) (t : datetime) :
  has_column "amount" p = false ->
  get_summary (snapshot p pr pk s t) = Raise (KeyError "amount") /\
  forall sheet, _create_summary p pr pk s = Ok sheet ->
                sheet_cell 0 "Total Value" sheet = Some (VStr "N/A").
Proof.
  intros Hno. split.
  - unfold get_summary, snapshot, column_sum, getitem.
    cbn [last_updated purchase as_frame mbind result_bind].
    unfold has_column in Hno.
    destruct (index_of "amount" (columns p)); [discriminate Hno|reflexivity].
  - intros sheet Hsheet. unfold _create_summary in Hsheet.
    rewrite Hno in Hsheet. cbn [mret result_ret] in Hsheet.
    bind_inv Hsheet.
    match goal with
    | H : mret "N/A" = Ok _ |- _ => injection H as <-
    end.
    injection Hsheet as <-. reflexivity.
Qed.

Lemma live_summary_needs_amount_witness :
  has_column "amount" (one_shipment "Pending") = false /\
  get_summary (snapshot (one_shipment "Pending") two_runs two_runs
                        no_shipments eight_o_clock) =
    Raise (KeyError "amount") /\
  exists sheet,
    _create_summary (one_shipment "Pending") two_runs two_runs no_shipments =
      Ok sheet /\
    sheet_cell 0 "Total Value" sheet = Some (VStr "N/A").
Proof.
  split; [reflexivity|].
  destruct (live_summary_needs_amount (one_shipment "Pending") two_runs
              two_runs no_shipments eight_o_clock eq_refl) as [Hlive Hsheet].
  split; [exact Hlive|].
  eexists. split; [vm_compute; reflexivity|].
  apply Hsheet. vm_compute. reflexivity.
Defined.

Lemma imap_keys {A B : Type} (g : nat -> A -> B) (l : list A)
    (h : nat -> A -> A * B) :
  (forall i c, fst (h i c) = c) -> map fst (imap h l) = l.
Proof.
  revert h. induction l as [|c l IH]; intros h Hh; cbn; [reflexivity|].
  rewrite Hh. f_equal. apply IH. intros i c'. apply Hh.
Qed.

Lemma assoc_imap {B : Type} (h : nat -> string -> string * B) (g : nat -> B)
    (c : string) (cols : list string) :
  (forall i c', h i c' = (c', g i)) ->
  assoc c (imap h cols) = g <$> index_of c cols.
Proof.
  revert h g. induction cols as [|c' cols IH]; intros h g Hh; cbn;
    [reflexivity|].
  rewrite Hh. destruct (String.eqb c c'); [reflexivity|].
  rewrite (IH _ (fun i => g (S i))) by (intros i c''; apply Hh).
  destruct (index_of c cols); reflexivity.
Qed.

(** X14. For each of the four department names, on a published snapshot the
    department route answers 200 with one record per row of that
    department's frame, in order; [count] is the number of records; and
    the keys of every record are the column labels, in column order.
    The labels are taken to be distinct: of a repeated label pandas keeps
    one entry per record. *)
Theorem department_records (k : Kind) (p pr pk s : DataFrame) (t : datetime) :
  NoDup (columns (pick k p pr pk s)) ->
  exists items,
    get_department_data (kind_name k) (snapshot p pr pk s t) =
      Ok {| body := JObj [ ("data", JArr items);
                           ("count", jint (Z.of_nat (length items))) ];
            status := 200 |} /\
    length items = length (rows (pick k p pr pk s)) /\
    Forall (fun item => exists fields,
              item = JObj fields /\
              map fst fields = columns (pick k p pr pk s)) items.
Proof.
  intros _.
  exists (map (fun r => JObj (imap (fun i c => (c, JVal (nth i r VNaN)))
                               (columns (pick k p pr pk s))))
              (rows (pick k p pr pk s))).
  split; [|split].
  - rewrite length_map. destruct k; reflexivity.
  - apply length_map.
  - apply Forall_forall. intros item Hin.
    apply list_elem_of_In, in_map_iff in Hin. destruct Hin as [r [<- _]].
    eexists. split; [reflexivity|].
    apply (imap_keys (fun i c => JVal (nth i r VNaN))). reflexivity.
Qed.

Lemma department_records_witness :
  NoDup (columns (pick KProduction ten_purchases two_runs two_runs
                       no_shipments)) /\
  exists items,
    get_department_data "production"
      (snapshot ten_purchases two_runs two_runs no_shipments eight_o_clock) =
      Ok {| body := JObj [ ("data", JArr items);
                           ("count", jint (Z.of_nat (length items))) ];
            status := 200 |} /\
    length items = 2%nat.
Proof.
  assert (NoDup (columns (pick KProduction ten_purchases two_runs two_runs
                            no_shipments))) as Hcols.
  { apply (bool_decide_unpack _). vm_compute. reflexivity. }
  split; [exact Hcols|].
  destruct (department_records KProduction ten_purchases two_runs two_runs
              no_shipments eight_o_clock Hcols) as (items & Hr & Hn & _).
  exists items. split; [exact Hr|exact Hn].
Defined.

(** X15. Reading one key from every record of [to_dict(orient='records')]
    gives back that column of the frame, cell by cell; a key that is not
    a column label is in no record.  The labels are taken to be
    distinct. *)
Theorem records_give_back_column (df : DataFrame) (c : string)
    (items : list json) :
  NoDup (columns df) ->
  to_records df = JArr items ->
  match getitem df c with
  | Ok col => map (record_field c) items = map (fun v => Some (JVal v)) col
  | Raise _ => Forall (fun item => record_field c item = None) items
  end.
Proof.
  unfold to_records, getitem. intros _ H. injection H as <-.
  destruct (index_of c (columns df)) as [i|] eqn:Hi.
  - rewrite !map_map. apply map_ext. intros r. cbn [record_field].
    rewrite (assoc_imap _ (fun i => JVal (nth i r VNaN))), Hi
      by reflexivity.
    reflexivity.
  - apply Forall_forall. intros item Hin.
    apply list_elem_of_In, in_map_iff in Hin. destruct Hin as [r [<- _]].
    cbn [record_field].
    rewrite (assoc_imap _ (fun i => JVal (nth i r VNaN))), Hi
      by reflexivity.
    reflexivity.
Qed.

Lemma records_give_back_column_witness :
  NoDup (columns two_runs) /\
  exists items,
    to_records two_runs = JArr items /\
    map (record_field "status") items =
      map (fun v => Some (JVal v))
          (map (fun r => nth 1 r VNaN) (rows two_runs)) /\
    Forall (fun item => record_field "amount" item = None) items.
Proof.
  assert (NoDup (columns two_runs)) as Hcols.
  { apply (bool_decide_unpack _). vm_compute. reflexivity. }
  split; [exact Hcols|].
  eexists. split; [reflexivity|].
  split.
  - apply (records_give_back_column two_runs "status" _ Hcols eq_refl).
  - apply (records_give_back_column two_runs "amount" _ Hcols eq_refl).
Defined.

(** ** Downloading reports *)

Ltac run_download rt :=
  destruct rt as [|[]];
  match goal with
  | |- download_report ?n _ = _ =>
      let v := eval vm_compute in (assoc n file_map) in
      unfold download_report; change (assoc n file_map) with v;
      cbv beta iota zeta
  end;
  match goal with
  | |- context [Path_of ?n] =>
      let v := eval vm_compute in (Path_of n) in
      change (Path_of n) with v
  end;
  repeat match goal with
  | H : context [latest_artifact ?r] |- _ =>
      let v := eval vm_compute in (latest_artifact r) in
      change (latest_artifact r) with v in H
  | |- context [latest_artifact ?r] =>
      let v := eval vm_compute in (latest_artifact r) in
      change (latest_artifact r) with v
  end;
  unfold path_exists, send_file; run_M.

Lemma download_found (rt : Report) (w : World) (f : File) :
  fs w !! latest_artifact rt = Some f ->
  download_report (report_type_of rt) w =
    (w, Ok (Attachment (latest_artifact rt) f)).
Proof.
  intros Hf. run_download rt; rewrite Hf; run_M; rewrite Hf; reflexivity.
Qed.

Lemma download_missing (rt : Report) (w : World) :
  fs w !! latest_artifact rt = None ->
  download_report (report_type_of rt) w =
    (w, Ok (Json (error_response "Report not found" 404))).
Proof.
  intros Hf. run_download rt; rewrite Hf; reflexivity.
Qed.

(** X16. The download route looks for each of its five report types under
    the latest name the report writer uses for that report: it serves the
    file found there, as it is, and answers 'Report not found' (404) when
    there is none.  It changes nothing. *)
Theorem download_serves_latest (rt : Report) (w : World) :
  download_report (report_type_of rt) w =
  (w, Ok match fs w !! latest_artifact rt with
         | Some f => Attachment (latest_artifact rt) f
         | None => Json (error_response "Report not found" 404)
         end).
Proof.
  destruct (fs w !! latest_artifact rt) as [f|] eqn:Hf.
  - now apply download_found.
  - now apply download_missing.
Qed.

(** X17. Any other report type is refused with 'Invalid report type' (400),
    whatever the files are, and nothing changes. *)
Theorem download_rejects_unknown (report_type : string) (w : World) :
  report_type ∉ map report_type_of all_reports ->
  download_report report_type w =
    (w, Ok (Json (error_response "Invalid report type" 400))).
Proof.
  intros Hnot. unfold all_reports in Hnot. cbn [map] in Hnot.
  rewrite !not_elem_of_cons in Hnot.
  destruct Hnot as (H1 & H2 & H3 & H4 & H5 & _).
  unfold download_report, file_map. cbn [assoc].
  apply String.eqb_neq in H1, H2, H3, H4, H5.
  change (report_type_of TheWorkbook) with "excel" in H1.
  change (report_type_of (ExportOf KPurchase)) with "purchase_csv" in H2.
  change (report_type_of (ExportOf KProduction)) with "production_csv" in H3.
  change (report_type_of (ExportOf KPacking)) with "packing_csv" in H4.
  change (report_type_of (ExportOf KShipment)) with "shipment_csv" in H5.
  rewrite H1, H2, H3, H4, H5. reflexivity.
Qed.

Lemma download_rejects_unknown_witness :
  ("pdf" ∉ map report_type_of all_reports) /\
  download_report "pdf" (world_with old_reports ∅) =
    (world_with old_reports ∅,
     Ok (Json (error_response "Invalid report type" 400))).
Proof.
  assert ("pdf" ∉ map report_type_of all_reports) as Hnot.
  { unfold all_reports. cbn [map]. rewrite !not_elem_of_cons.
    repeat split; try (intros E; discriminate E). apply not_elem_of_nil. }
  split; [exact Hnot|].
  apply (download_rejects_unknown "pdf" (world_with old_reports ∅) Hnot).
Defined.

(** X18. After a cycle that did everything, each of the five report types
    downloads what that cycle wrote: the workbook with its five sheets,
    or the export of the dataset, stamped with the time of the cycle. *)
Theorem download_after_cycle
    (p pr pk s : DataFrame) (summary : list Dict) (w : World) (rt : Report) :
  erp w = answers p pr pk s ->
  _create_summary p pr pk s = Ok summary ->
  Forall (fun q => q ∉ denied w)
         (artifact_paths (strftime_compact (clock w))) ->
  download_report (report_type_of rt) (fst (fetch_and_process_data w)) =
    (fst (fetch_and_process_data w),
     Ok (Attachment (latest_artifact rt)
                    (written w (artifact_content rt p pr pk s summary)))).
Proof.
  intros Herp Hsum Hfree.
  destruct (cycle_success p pr pk s summary w Herp Hsum Hfree)
    as (w' & -> & _ & _ & Hwb & Hcsv & _).
  cbn [fst]. apply download_found.
  unfold csv_datasets in Hcsv. rewrite !Forall_cons in Hcsv.
  destruct Hcsv as ((_ & H1) & (_ & H2) & (_ & H3) & (_ & H4) & _).
  destruct rt as [|[]]; cbn [latest_artifact artifact_content pick kind_name].
  - exact Hwb.
  - exact H1.
  - exact H2.
  - exact H3.
  - exact H4.
Qed.

Lemma download_after_cycle_witness :
  exists summary,
    erp (world_with old_reports ∅) =
      answers ten_purchases two_runs two_runs no_shipments /\
    _create_summary ten_purchases two_runs two_runs no_shipments =
      Ok summary /\
    Forall (fun q => q ∉ denied (world_with old_reports ∅))
           (artifact_paths
              (strftime_compact (clock (world_with old_reports ∅)))) /\
    download_report "production_csv"
      (fst (fetch_and_process_data (world_with old_reports ∅))) =
      (fst (fetch_and_process_data (world_with old_reports ∅)),
       Ok (Attachment (latest_csv "production_data")
                      (written (world_with old_reports ∅) (Csv two_runs)))).
Proof.
  eexists. split; [reflexivity|]. split; [vm_compute; reflexivity|].
  assert (Forall (fun q => q ∉ denied (world_with old_reports ∅))
            (artifact_paths
               (strftime_compact (clock (world_with old_reports ∅))))) as Hfree.
  { apply Forall_forall. intros q _. apply not_elem_of_empty. }
  split; [exact Hfree|].
  apply (download_after_cycle ten_purchases two_runs two_runs no_shipments _
           (world_with old_reports ∅) (ExportOf KProduction)
           eq_refl eq_refl Hfree).
Defined.

Lemma latest_artifact_swept (rt : Report) :
  sweep_candidate (latest_artifact rt) = true.
Proof. destruct rt as [|[]]; vm_compute; reflexivity. Qed.

(** X19. A report whose latest file is older than the retention period is
    gone after the sweep: the download route then answers 'Report not
    found' (404) for it, until the next cycle writes it again. *)
Theorem download_after_sweep
    (days : Z) (w : World) (rt : Report) (f : File) :
  sweep_unhindered days w ->
  fs w !! latest_artifact rt = Some f ->
  expired days w f = true ->
  download_report (report_type_of rt) (fst (cleanup_old_reports days w)) =
    (fst (cleanup_old_reports days w),
     Ok (Json (error_response "Report not found" 404))).
Proof.
  intros Hfree Hf Hold. apply download_missing.
  rewrite (sweep_outcome days w Hfree), Hf, latest_artifact_swept, Hold.
  reflexivity.
Qed.

Lemma download_after_sweep_witness :
  sweep_unhindered 30 (world_with old_reports ∅) /\
  fs (world_with old_reports ∅) !! latest_artifact TheWorkbook =
    Some {| mtime := epoch eight_o_clock - 40 * seconds_per_day;
            content := Workbook [("Purchase", no_shipments)] |} /\
  download_report "excel"
    (fst (cleanup_old_reports 30 (world_with old_reports ∅))) =
    (fst (cleanup_old_reports 30 (world_with old_reports ∅)),
     Ok (Json (error_response "Report not found" 404))).
Proof.
  assert (sweep_unhindered 30 (world_with old_reports ∅)) as Hfree
    by apply unhindered_without_protection.
  split; [exact Hfree|]. split; [reflexivity|].
  apply (download_after_sweep 30 (world_with old_reports ∅) TheWorkbook _
           Hfree eq_refl eq_refl).
Defined.

(** ** The lock *)

Lemma free_lock_step (i : nat) (t : Thread) (c : Config) :
  data_lock c = None -> has_returned t = false ->
  is_Some (thread_step i t c).
Proof.
  intros Hfree Hrun.
  destruct t as [pc|q pc]; destruct pc; try discriminate Hrun;
    cbn [thread_step refresh_step handler_step];
    unfold do_op, assign, acquire, release; rewrite ?Hfree;
    try match goal with
    | |- context [match ?m (world c) with _ => _ end] =>
        destruct (m (world c)) as [w' [a|e]]
    end; eauto.
Qed.

Lemma holder_step (i : nat) (t : Thread) (c : Config) :
  holds_lock t = true -> is_Some (thread_step i t c).
Proof.
  intros Hh.
  destruct t as [pc|q pc]; destruct pc; try discriminate Hh;
    cbn [thread_step refresh_step handler_step];
    unfold assign, release; eauto.
Qed.

(** X20. At any moment of any run at most one thread is inside a
    [with data_lock:] block, be it a cycle publishing or a query
    reading. *)
Theorem one_thread_in_lock (w : World) (evs : list Event) (i j : nat)
    (t1 t2 : Thread) :
  latest_data w = initial_latest_data ->
  threads (run evs (boot w)) !! i = Some t1 -> holds_lock t1 = true ->
  threads (run evs (boot w)) !! j = Some t2 -> holds_lock t2 = true ->
  i = j.
Proof.
  intros Hw Hi H1 Hj H2.
  destruct (lock_inv_run_all evs (boot w) (lock_inv_boot w Hw)) as (Hl & _).
  pose proof (Hl i t1 Hi H1) as Ei. pose proof (Hl j t2 Hj H2) as Ej.
  rewrite Ei in Ej. now injection Ej.
Qed.

Lemma one_thread_in_lock_witness :
  latest_data (world_with old_reports ∅) = initial_latest_data /\
  threads (run [Trigger; Request Summary; Run 1]
               (boot (world_with old_reports ∅))) !! 1%nat =
    Some (Handler Summary HBody) /\
  holds_lock (Handler Summary HBody) = true /\
  1%nat = 1%nat.
Proof.
  split; [reflexivity|]. split; [reflexivity|]. split; [reflexivity|].
  apply (one_thread_in_lock (world_with old_reports ∅)
           [Trigger; Request Summary; Run 1] 1 1
           (Handler Summary HBody) (Handler Summary HBody));
    reflexivity.
Defined.

(** X21. The lock never brings the process to a halt: at any moment of any
    run, if some thread has not finished then some thread can run its
    next statement.  (When the lock is held its holder can; the blocks
    under the lock contain nothing that waits.) *)
Theorem lock_never_stuck (w : World) (evs : list Event) (i : nat)
    (t : Thread) :
  latest_data w = initial_latest_data ->
  threads (run evs (boot w)) !! i = Some t -> has_returned t = false ->
  exists j t',
    threads (run evs (boot w)) !! j = Some t' /\
    is_Some (thread_step j t' (run evs (boot w))).
Proof.
  intros Hw Hi Hrun.
  destruct (lock_inv_run_all evs (boot w) (lock_inv_boot w Hw))
    as (_ & Hl & _).
  destruct (data_lock (run evs (boot w))) as [k|] eqn:Hlock.
  - destruct Hl as (tk & Hk & Hh & _).
    exists k, tk. split; [exact Hk|]. now apply holder_step.
  - exists i, t. split; [exact Hi|]. now apply free_lock_step.
Qed.

Lemma lock_never_stuck_witness :
  latest_data (world_with old_reports ∅) = initial_latest_data /\
  exists j t',
    threads (run [Trigger; Request Summary; Run 1]
                 (boot (world_with old_reports ∅))) !! j = Some t' /\
    is_Some (thread_step j t'
               (run [Trigger; Request Summary; Run 1]
                    (boot (world_with old_reports ∅)))).
Proof.
  split; [reflexivity|].
  apply (lock_never_stuck (world_with old_reports ∅)
           [Trigger; Request Summary; Run 1] 0 (Refresh AtStart));
    reflexivity.
Defined.

(** ** The summary sheet, whatever the frames *)

Lemma count_status_value df x n :
  count_status df x = Ok n -> n = records_with_status df [x].
Proof.
  intros H. assert (has_column "status" df = true) as Hc.
  { unfold count_status, getitem, has_column in *.
    destruct (index_of "status" (columns df)); [reflexivity|discriminate H]. }
  rewrite (count_status_spec df x Hc) in H. now injection H.
Qed.

Lemma count_status_in_value df xs n :
  count_status_in df xs = Ok n -> n = records_with_status df xs.
Proof.
  intros H. assert (has_column "status" df = true) as Hc.
  { unfold count_status_in, getitem, has_column in *.
    destruct (index_of "status" (columns df)); [reflexivity|discriminate H]. }
  rewrite (count_status_in_spec df xs Hc) in H. now injection H.
Qed.

Lemma disjoint_status_counts df xs ys :
  forallb (fun x => negb (existsb (String.eqb x) ys)) xs = true ->
  0 <= records_with_status df xs /\ 0 <= records_with_status df ys /\
  records_with_status df xs + records_with_status df ys <= len df.
Proof.
  intros Hdis. unfold records_with_status, len.
  split; [lia|]. split; [lia|].
  rewrite <- Nat2Z.inj_add. apply inj_le.
  induction (rows df) as [|r l IH]; cbn [List.filter length]; [lia|].
  assert (status_among xs (status_of df r) &&
          status_among ys (status_of df r) = false) as Hone.
  { destruct (status_of df r) as [t| | |]; try reflexivity.
    cbn [status_among].
    destruct (existsb (String.eqb t) xs) eqn:Hx; [|reflexivity].
    apply existsb_exists in Hx as (x & Hin & Hx).
    apply String.eqb_eq in Hx. subst x.
    rewrite forallb_forall in Hdis. specialize (Hdis t Hin).
    cbn [andb]. now apply negb_true_iff in Hdis. }
  destruct (status_among xs (status_of df r)),
           (status_among ys (status_of df r));
    try discriminate Hone; cbn [length]; lia.
Qed.

(** X22. Whatever the four frames hold, when the summary can be computed
    the pending and the completed count of every row are counts of
    different records: neither is negative and together they do not
    exceed the row's record count. *)
Theorem summary_counts_bounded
    (p pr pk s : DataFrame) (summary : list Dict) (d : Dict) :
  _create_summary p pr pk s = Ok summary ->
  d ∈ summary ->
  exists total pending completed,
    assoc "Total Records" d = Some (vint total) /\
    assoc "Pending" d = Some (vint pending) /\
    assoc "Completed" d = Some (vint completed) /\
    0 <= pending /\ 0 <= completed /\ pending + completed <= total.
Proof.
  intros Hsum Hd. unfold _create_summary in Hsum. bind_inv Hsum.
  injection Hsum as <-.
  repeat match goal with
  | H : count_status _ _ = Ok _ |- _ => apply count_status_value in H
  | H : count_status_in _ _ = Ok _ |- _ => apply count_status_in_value in H
  end.
  subst.
  rewrite !elem_of_cons in Hd.
  destruct Hd as [->|[->|[->|[->|Hd]]]];
    [| | | |now apply elem_of_nil in Hd];
    do 3 eexists; (split; [reflexivity|]); (split; [reflexivity|]);
    (split; [reflexivity|]); apply disjoint_status_counts; reflexivity.
Qed.

Lemma summary_counts_bounded_witness :
  exists summary d,
    _create_summary ten_purchases two_runs two_runs no_shipments =
      Ok summary /\
    d ∈ summary /\
    assoc "Department" d = Some (VStr "Purchase") /\
    exists total pending completed,
      assoc "Total Records" d = Some (vint total) /\
      assoc "Pending" d = Some (vint pending) /\
      assoc "Completed" d = Some (vint completed) /\
      0 <= pending /\ 0 <= completed /\ pending + completed <= total.
Proof.
  eexists _, _. split; [vm_compute; reflexivity|].
  split; [left|]. split; [reflexivity|].
  eapply (summary_counts_bounded ten_purchases two_runs two_runs
            no_shipments).
  - vm_compute. reflexivity.
  - left.
Defined.

(** X23. As a frame the summary sheet has eight columns, the four shared
    ones followed by one total column per department in the order of the
    departments; each total column is filled in its own department's row
    and empty (NaN) in the other three. *)
Theorem summary_sheet_shape (p pr pk s : DataFrame) (summary : list Dict) :
  _create_summary p pr pk s = Ok summary ->
  columns (frame_of_records summary) = summary_columns /\
  exists tp tpr tpk ts,
    getitem (frame_of_records summary) "Department" =
      Ok [VStr "Purchase"; VStr "Production"; VStr "Packing";
          VStr "Shipment"] /\
    getitem (frame_of_records summary) "Total Value" =
      Ok [VStr tp; VNaN; VNaN; VNaN] /\
    getitem (frame_of_records summary) "Total Quantity" =
      Ok [VNaN; VStr tpr; VNaN; VNaN] /\
    getitem (frame_of_records summary) "Total Packed" =
      Ok [VNaN; VNaN; VStr tpk; VNaN] /\
    getitem (frame_of_records summary) "Total Shipped" =
      Ok [VNaN; VNaN; VNaN; VStr ts].
Proof.
  intros Hsum. unfold _create_summary in Hsum. bind_inv Hsum.
  injection Hsum as <-.
  split; [reflexivity|]. do 4 eexists.
  repeat match goal with |- _ /\ _ => split end;
    (etransitivity; [lazy; reflexivity|reflexivity]).
Qed.

Lemma summary_sheet_shape_witness :
  exists summary,
    _create_summary ten_purchases two_runs two_runs no_shipments =
      Ok summary /\
    columns (frame_of_records summary) = summary_columns.
Proof.
  eexists. split; [vm_compute; reflexivity|].
  apply (summary_sheet_shape ten_purchases two_runs two_runs no_shipments).
  vm_compute. reflexivity.
Defined.

(** ** A workbook without its summary *)

(** X24. When the summary cannot be computed (a frame without the status
    column, say) the Excel call still leaves a stamped workbook behind:
    it holds the four data sheets and no summary.  The latest workbook is
    not replaced, the failure is logged and raised again. *)
Theorem excel_without_summary
    (p pr pk s : DataFrame) (e : exn) (w : World) :
  _create_summary p pr pk s = Raise e ->
  stamped_workbook (strftime_compact (clock w)) ∉ denied w ->
  exists w',
    generate_excel_reports p pr pk s w = (w', Raise e) /\
    fs w' = <[ stamped_workbook (strftime_compact (clock w)) :=
                 written w (Workbook (data_sheets p pr pk s)) ]> (fs w) /\
    fs w' !! latest_workbook = fs w !! latest_workbook /\
    latest_data w' = latest_data w /\
    log w' = (log w ++
              [ INFO "Generating Excel reports...";
                ERROR ("Failed to generate Excel report: " ++ exn_str e) ])%list.
Proof.
  intros Hsum Hfree.
  unfold generate_excel_reports, with_ExcelWriter, stamped_workbook,
    latest_workbook, written, data_sheets in *.
  rewrite Hsum. run_M. repeat (step_io; try contradiction).
  eexists. split; [reflexivity|]. cbn [fs latest_data log set_fs add_log].
  split; [reflexivity|]. split.
  - rewrite lookup_insert_ne by (intros H; discriminate H). reflexivity.
  - split; [reflexivity|]. rewrite <- app_assoc. reflexivity.
Qed.

Lemma excel_without_summary_witness :
  _create_summary orders_without_status two_runs two_runs no_shipments =
    Raise (KeyError "status") /\
  (stamped_workbook (strftime_compact (clock (world_with ∅ ∅)))
     ∉ denied (world_with ∅ ∅)) /\
  exists w',
    generate_excel_reports orders_without_status two_runs two_runs
                           no_shipments (world_with ∅ ∅) =
      (w', Raise (KeyError "status")) /\
    fs w' !! latest_workbook = None.
Proof.
  split; [reflexivity|].
  assert (stamped_workbook (strftime_compact (clock (world_with ∅ ∅)))
            ∉ denied (world_with ∅ ∅)) as Hfree by apply not_elem_of_empty.
  split; [exact Hfree|].
  destruct (excel_without_summary orders_without_status two_runs two_runs
              no_shipments (KeyError "status") (world_with ∅ ∅) eq_refl Hfree)
    as (w' & Hrun & _ & Hlatest & _).
  exists w'. split; [exact Hrun|]. rewrite Hlatest. reflexivity.
Defined.

(** ** Exports, dataset by dataset *)

(** X25. The exports are written dataset by dataset, in the order purchase,
    production, packing, shipment, and the first write that fails ends
    the call: the datasets before it are exported under both names, the
    failing dataset and those after it are left as they were, and the
    failure is logged and raised. *)
Theorem csv_stops_at_first_failure
    (k : Kind) (p pr pk s : DataFrame) (w : World) :
  stamped_csv (export_name k) (strftime_compact (clock w)) ∈ denied w ->
  earlier_exports_free k w ->
  exists w',
    generate_csv_exports p pr pk s w =
      (w', Raise (OSError (stamped_csv (export_name k)
                             (strftime_compact (clock w))))) /\
    (forall k',
       fs w' !! stamped_csv (export_name k') (strftime_compact (clock w)) =
         (if (kind_index k' <? kind_index k)%nat
          then Some (written w (Csv (pick k' p pr pk s)))
          else fs w !! stamped_csv (export_name k')
                          (strftime_compact (clock w))) /\
       fs w' !! latest_csv (export_name k') =
         (if (kind_index k' <? kind_index k)%nat
          then Some (written w (Csv (pick k' p pr pk s)))
          else fs w !! latest_csv (export_name k'))) /\
    last (log w') =
      Some (ERROR ("Failed to generate CSV exports: " ++
                   exn_str (OSError (stamped_csv (export_name k)
                                       (strftime_compact (clock w)))))).
Proof.
  intros Hbad Hfree.
  assert (forall k', (kind_index k' <? kind_index k)%nat = true ->
            (stamped_csv (export_name k') (strftime_compact (clock w))
               ∉ denied w) /\
            (latest_csv (export_name k') ∉ denied w)) as Hfree'.
  { intros k' Hlt. apply Hfree. now apply Nat.ltb_lt. }
  clear Hfree.
  pose proof (Hfree' KPurchase) as F1. pose proof (Hfree' KProduction) as F2.
  pose proof (Hfree' KPacking) as F3. clear Hfree'.
  unfold generate_csv_exports, stamped_csv, latest_csv, export_name, written
    in *.
  destruct k; cbn [kind_index kind_name Nat.ltb Nat.leb] in *;
    repeat match goal with
    | H : true = true -> _ |- _ => destruct (H eq_refl); clear H
    | H : false = true -> _ |- _ => clear H
    end;
    change ("purchase" ++ "_data") with "purchase_data" in *;
    change ("production" ++ "_data") with "production_data" in *;
    change ("packing" ++ "_data") with "packing_data" in *;
    change ("shipment" ++ "_data") with "shipment_data" in *;
    run_M; repeat (step_io; try contradiction);
    (eexists; split; [reflexivity|]);
    cbn [fs log set_fs add_log];
    (split; [|rewrite last_snoc; reflexivity]);
    intros k'; destruct k'; cbn [kind_index kind_name Nat.ltb Nat.leb pick];
    change ("purchase" ++ "_data") with "purchase_data";
    change ("production" ++ "_data") with "production_data";
    change ("packing" ++ "_data") with "packing_data";
    change ("shipment" ++ "_data") with "shipment_data";
    split; lookup_through; reflexivity.
Qed.

Lemma csv_stops_at_first_failure_witness :
  (stamped_csv (export_name KPacking)
     (strftime_compact
        (clock (world_with ∅ {[ stamped_csv "packing_data"
                                  "20240305_080000" ]})))
     ∈ denied (world_with ∅ {[ stamped_csv "packing_data"
                                 "20240305_080000" ]})) /\
  earlier_exports_free KPacking
    (world_with ∅ {[ stamped_csv "packing_data" "20240305_080000" ]}) /\
  exists w',
    generate_csv_exports ten_purchases two_runs two_runs no_shipments
      (world_with ∅ {[ stamped_csv "packing_data" "20240305_080000" ]}) =
      (w', Raise (OSError (stamped_csv "packing_data" "20240305_080000"))) /\
    fs w' !! latest_csv "production_data" =
      Some {| mtime := epoch eight_o_clock; content := Csv two_runs |} /\
    fs w' !! latest_csv "packing_data" = None /\
    fs w' !! latest_csv "shipment_data" = None.
Proof.
  set (w := world_with ∅ {[ stamped_csv "packing_data" "20240305_080000" ]}).
  assert (stamped_csv (export_name KPacking) (strftime_compact (clock w))
            ∈ denied w) as Hbad.
  { vm_compute. reflexivity. }
  assert (earlier_exports_free KPacking w) as Hfree.
  { intros k' Hlt. unfold w, world_with. cbn [denied clock].
    rewrite !not_elem_of_singleton.
    destruct k'; cbn in Hlt; try lia; split; intros E; discriminate E. }
  split; [exact Hbad|]. split; [exact Hfree|].
  destruct (csv_stops_at_first_failure KPacking ten_purchases two_runs
              two_runs no_shipments w Hbad Hfree) as (w' & Hrun & Hfiles & _).
  exists w'. split; [exact Hrun|].
  split; [exact (proj2 (Hfiles KProduction))|].
  split; [exact (proj2 (Hfiles KPacking))|exact (proj2 (Hfiles KShipment))].
Defined.
